(** * Track-based trigger analysis component and the UPC task macro

    A shallow embedding of

    - [PWGJE/EMCALJetTasks/Tracks/AliEMCalTriggerRecTrackAnalysisComponent.cxx]
      (the per-event track loop [Process], [IsMCTrueTrack], [FillHistogram]
      and [FillCorrelation]),
    - [PWGJE/EMCALJetTasks/Tracks/AliEMCalTriggerClusterAnalysisComponent.h]
      (the energy range setter), and
    - [PWGUD/UPC/nanoAOD/AddTaskUpcNano_MB.C] (the task registration macro).

    [Double_t] quantities are carried as rationals: the code only moves
    them around, takes absolute values, multiplies by [1] or [-1] and
    compares them, all of which are exact on finite doubles.  Everything the
    component writes (histogram fills, log lines) is recorded in a trace, and
    a dereferenced null pointer stops the execution. *)

From Stdlib Require Import ZArith QArith Qabs List String Bool Lia.
From Stdlib Require Import DecimalString.
From ExtLib Require Import Structures.Monad.
Import ListNotations.
Import MonadNotation.

Local Open Scope string_scope.
Local Open Scope list_scope.
Local Open Scope Q_scope.
Local Open Scope monad_scope.

(** ** Scalars *)

Definition Double_t := Q.
Definition Int_t := Z.
Definition Bool_t := bool.

Bind Scope Q_scope with Double_t.
Bind Scope Z_scope with Int_t.

Module TMath.

(** [TMath::Abs(Double_t d)] is [(d >= 0) ? d : -d]. *)
Definition Abs (d : Double_t) : Double_t :=
  if Qle_bool 0 d then d else - d.

(** An integer result as the 32-bit [Int_t] holds it: in two's complement,
    wrapping around at the ends of the range. *)
Definition wrapInt (z : Z) : Int_t :=
  ((z + 2 ^ 31) mod 2 ^ 32 - 2 ^ 31)%Z.

(** [TMath::Abs(Int_t d)] is [(d >= 0) ? d : -d], an [Int_t]: the negation
    of the least [Int_t], -2^31, overflows, and in two's complement
    arithmetic comes out as -2^31 itself. *)
Definition AbsInt (d : Int_t) : Int_t :=
  wrapInt (if (0 <=? d)%Z then d else (- d)%Z).

End TMath.

(** [Form("<fmt>%d", n)] and [Form("<fmt>%s", s)]: the formatted argument
    follows the literal text. *)
Definition FormInt (fmt : string) (n : Z) : string :=
  String.append fmt (NilZero.string_of_int (Z.to_int n)).

Definition Form (fmt : string) (s : string) : string := String.append fmt s.

(** ** What the component emits *)

Inductive LogEvent : Type :=
| Fill (histname : string) (data : list Double_t) (weight : Double_t)
    (* fHistos->FillTHnSparse(histname, data, weight) *)
| Error (msg : string)                      (* AliError(msg) *)
| Debug (level : Z) (msg : string)          (* AliDebug(level, msg), when active *)
| BoundsError (index size : Z).
    (* ROOT's Error("At", "index %d out of bounds (size: %d, this: ...)"),
       which TObjArray::At prints for an index outside the array *)

(** An execution yields the events emitted so far and either a value or
    nothing, the latter when a null pointer was dereferenced. *)
Definition Exec (A : Type) : Type := (list LogEvent * option A)%type.

Definition trace {A} (m : Exec A) : list LogEvent := fst m.
Definition result {A} (m : Exec A) : option A := snd m.

Definition Exec_ret {A} (a : A) : Exec A := ([], Some a).

Definition Exec_bind {A B} (m : Exec A) (f : A -> Exec B) : Exec B :=
  match m with
  | (tr, Some a) => (tr ++ trace (f a), result (f a))
  | (tr, None) => (tr, None)
  end.

#[export] Instance Monad_Exec : Monad Exec :=
  {| ret := @Exec_ret; bind := @Exec_bind |}.

Definition emit (e : LogEvent) : Exec unit := ([e], Some tt).

(** [p->...] on a pointer that may be null. *)
Definition deref {A} (p : option A) : Exec A := ([], p).

(** [!p] *)
Definition isNull {A} (p : option A) : bool :=
  match p with Some _ => false | None => true end.

Definition returned {A} (m : Exec A) : Prop := result m <> None.
Definition crashed {A} (m : Exec A) : Prop := result m = None.

(** A [for]/[while] loop over the elements an iterator yields. *)
Fixpoint forEach {A} (l : list A) (body : A -> Exec unit) : Exec unit :=
  match l with
  | [] => ret tt
  | x :: rest => body x ;; forEach rest body
  end.

(** The histogram fills of a trace, in order. *)
Record FillRecord : Type := mkFill {
  fillName : string;
  fillData : list Double_t;
  fillWeight : Double_t
}.

Fixpoint fills (tr : list LogEvent) : list FillRecord :=
  match tr with
  | [] => []
  | Fill n d w :: rest => mkFill n d w :: fills rest
  | _ :: rest => fills rest
  end.

Fixpoint errors (tr : list LogEvent) : list string :=
  match tr with
  | [] => []
  | Error m :: rest => m :: errors rest
  | _ :: rest => errors rest
  end.

(** ** Particles, tracks and clusters *)

(** [AliVParticle]: the kinematic interface shared by reconstructed tracks
    and generated particles. *)
Class AliVParticle (A : Type) : Type := {
  Pt : A -> Double_t;
  Eta : A -> Double_t;
  Phi : A -> Double_t
}.

(** The data members of a track that the component reads. *)
Record TrackParam : Type := mkTrackParam {
  trkPt : Double_t;
  trkEta : Double_t;
  trkPhi : Double_t;
  trkLabel : Int_t;
  trkEMCALcluster : Int_t
}.

(** [AliVTrack]: either an [AliPicoTrack], which carries its own copy of the
    kinematics and a pointer to the track it was made from ([GetTrack()],
    which may be null), or a track of any other class. *)
#[warnings="-register-all"]
Inductive AliVTrack : Type :=
| VTrack (p : TrackParam)
| PicoTrack (p : TrackParam) (fTrack : option AliVTrack).

Definition param (t : AliVTrack) : TrackParam :=
  match t with
  | VTrack p => p
  | PicoTrack p _ => p
  end.

#[export] Instance AliVTrack_particle : AliVParticle AliVTrack :=
  {| Pt := fun t => trkPt (param t);
     Eta := fun t => trkEta (param t);
     Phi := fun t => trkPhi (param t) |}.

Definition GetLabel (t : AliVTrack) : Int_t := trkLabel (param t).
Definition GetEMCALcluster (t : AliVTrack) : Int_t := trkEMCALcluster (param t).

(** [dynamic_cast<AliPicoTrack *>(track)]: for a pico track, the pointer
    that [GetTrack()] returns. *)
Definition asPicoTrack (t : AliVTrack) : option (option AliVTrack) :=
  match t with
  | VTrack _ => None
  | PicoTrack _ orig => Some orig
  end.

(** A generated particle.  [aodPrimary] is [Some flag] for an
    [AliAODMCParticle], which answers [IsPhysicalPrimary()] itself, and
    [None] for a particle of another class. *)
Record MCParticle : Type := mkMCParticle {
  mcPt : Double_t;
  mcEta : Double_t;
  mcPhi : Double_t;
  aodPrimary : option bool
}.

#[export] Instance MCParticle_particle : AliVParticle MCParticle :=
  {| Pt := mcPt; Eta := mcEta; Phi := mcPhi |}.

Record AliVCluster : Type := mkCluster { clusterE : Double_t }.

(** What a [TClonesArray] can hold, as far as the casts of the component
    tell: a track, a cluster, or an object of another class. *)
Inductive TObject : Type :=
| TrackObject (t : AliVTrack)
| ClusterObject (c : AliVCluster)
| OtherObject.

(** A [TClonesArray]: its slots in index order, [None] for an empty slot;
    the number of slots is the size that [At] checks an index against. *)
Definition TClonesArray := list (option TObject).

(** [GetEntries()]: the number of slots in use. *)
Definition GetEntries (c : TClonesArray) : Z :=
  Z.of_nat (List.length (filter (fun slot => negb (isNull slot)) c)).

(** The pointer that [At(i)] returns: the object in slot [i], null for an
    empty slot and outside the array. *)
Definition slotAt (c : TClonesArray) (i : Int_t) : option TObject :=
  if (i <? 0)%Z then None
  else match nth_error c (Z.to_nat i) with
       | Some slot => slot
       | None => None
       end.

(** [At(i)]: for an index outside the array it reports the index and the
    size of the array through ROOT's [Error] before it returns null. *)
Definition At (c : TClonesArray) (i : Int_t) : Exec (option TObject) :=
  if ((0 <=? i) && (i <? Z.of_nat (List.length c)))%Z
  then ret (slotAt c i)
  else emit (BoundsError i (Z.of_nat (List.length c))) ;; ret (slotAt c i).

(** [dynamic_cast<AliVTrack *>(obj)] *)
Definition asTrack (o : TObject) : option AliVTrack :=
  match o with TrackObject t => Some t | _ => None end.

(** [dynamic_cast<AliVCluster *>(obj)] *)
Definition asCluster (o : TObject) : option AliVCluster :=
  match o with ClusterObject c => Some c | _ => None end.

(** The tracks that [while((track = dynamic_cast<AliVTrack *>(trackIter())))]
    visits.  The iterator steps over empty slots; the loop ends at the end of
    the array or at the first object that is not a track. *)
Fixpoint trackIter (c : TClonesArray) : list AliVTrack :=
  match c with
  | [] => []
  | None :: rest => trackIter rest
  | Some o :: rest =>
      match asTrack o with
      | Some t => t :: trackIter rest
      | None => []
      end
  end.

(** ** Events *)

(** [AliMCEvent], through the two queries the component makes. *)
Record AliMCEvent : Type := mkMCEvent {
  GetTrack : Int_t -> option MCParticle;
  IsPhysicalPrimary : Int_t -> bool
}.

(** [AliVEvent]: [GetPrimaryVertex()->GetZ()]. *)
Record AliVEvent : Type := mkRecEvent { GetPrimaryVertexZ : Double_t }.

(** The event data handed to [Process].  The reconstructed event, with its
    primary vertex, is always there; the MC event and the two containers
    are pointers that may be null. *)
Record AliEMCalTriggerEventData : Type := mkEventData {
  GetRecEvent : AliVEvent;
  GetMCEvent : option AliMCEvent;
  GetClusterContainer : option TClonesArray;
  GetMatchedTrackContainer : option TClonesArray
}.

(** ** Collaborators of the component *)

(** Modelled from the spec: [AliCutValueRange<double>] (AliCutValueRange.h is
    not part of the sources at hand) is a closed interval [[min,max]]; a
    value is in range iff it lies within, both ends included. *)
Record AliCutValueRange : Type := mkRange {
  fLower : Double_t;
  fUpper : Double_t
}.

Definition SetLimits (r : AliCutValueRange) (min max : Double_t)
  : AliCutValueRange :=
  {| fLower := min; fUpper := max |}.

Definition IsInRange (r : AliCutValueRange) (value : Double_t) : bool :=
  Qle_bool (fLower r) value && Qle_bool value (fUpper r).

(** Modelled from the spec: [AliEMCalTriggerKineCuts::IsSelected]
    (AliEMCalTriggerKineCuts.cxx is not part of the sources at hand) accepts a
    candidate iff its primary kinematic value, the transverse momentum, lies
    in the configured closed range. *)
Record AliEMCalTriggerKineCuts : Type := mkKineCuts {
  fPtCut : AliCutValueRange
}.

Definition IsSelected (cuts : AliEMCalTriggerKineCuts) (track : AliVTrack)
  : bool :=
  IsInRange (fPtCut cuts) (Pt track).

(** [AliEMCalPtTaskVTrackSelection]: an external predicate on tracks. *)
Record AliEMCalPtTaskVTrackSelection : Type := mkTrackSelection {
  IsTrackAccepted : AliVTrack -> bool
}.

(** [AliEMCalTriggerWeightHandler]: an external map from the generated
    event to its weight. *)
Record AliEMCalTriggerWeightHandler : Type := mkWeightHandler {
  GetEventWeight : AliMCEvent -> Double_t
}.

Record AliEMCalTriggerAnaTriggerDecision : Type := mkTriggerDecision {
  IsMinBias : bool
}.

Inductive ETriggerMethod_t : Type := kTriggerString | kTriggerPatches.

(** ** The cluster analysis component (header only) *)

Record AliEMCalTriggerClusterAnalysisComponent : Type := mkClusterComponent {
  fEnergyRange : AliCutValueRange;
  fClusterTriggerMethod : ETriggerMethod_t
}.

(** [void SetEnergyRange(double min, double max)
      { fEnergyRange.SetLimits(min, max); }] *)
Definition SetEnergyRange (this : AliEMCalTriggerClusterAnalysisComponent)
    (min max : Double_t) : AliEMCalTriggerClusterAnalysisComponent :=
  {| fEnergyRange := SetLimits (fEnergyRange this) min max;
     fClusterTriggerMethod := fClusterTriggerMethod this |}.

(** [void SetTriggerMethod(ETriggerMethod_t method)
      { fTriggerMethod = method; }] *)
Definition SetTriggerMethod (this : AliEMCalTriggerClusterAnalysisComponent)
    (method : ETriggerMethod_t) : AliEMCalTriggerClusterAnalysisComponent :=
  {| fEnergyRange := fEnergyRange this;
     fClusterTriggerMethod := method |}.

(** ** The reconstructed-track analysis component *)

(** The data members of the component and of its base class that [Process]
    reads.  [GetMachingTriggerNames] is the base-class method (its source is
    not at hand) that lists the names of the trigger classes which selected
    the current event, for a given trigger method.  [fDebugLevel] is the
    [AliLog] debug level in force for the class: [AliDebug(n, msg)]
    evaluates and prints [msg] only when this level is at least [n]. *)
Record AliEMCalTriggerRecTrackAnalysisComponent : Type := mkComponent {
  fKineCuts : option AliEMCalTriggerKineCuts;
  fWeightHandler : option AliEMCalTriggerWeightHandler;
  fTriggerDecision : AliEMCalTriggerAnaTriggerDecision;
  GetMachingTriggerNames : ETriggerMethod_t -> list string;
  fTrackSelection : option AliEMCalPtTaskVTrackSelection;
  fSwapEta : Bool_t;
  fTriggerMethod : ETriggerMethod_t;
  fRequestMCtrue : Bool_t;
  fDebugLevel : Z
}.

(** [AliDebug(level, message)]: the message expression is evaluated, and the
    line printed, only when debugging is active at that level. *)
Definition AliDebug (this : AliEMCalTriggerRecTrackAnalysisComponent)
    (level : Z) (message : Exec string) : Exec unit :=
  if (level <=? fDebugLevel this)%Z
  then msg <- message ;; emit (Debug level msg)
  else ret tt.

Definition AliError (msg : string) : Exec unit := emit (Error msg).

(** Modelled from the spec: the default value of the [weight] argument of
    [FillCorrelation] is declared in AliEMCalTriggerRecTrackAnalysisComponent.h,
    which is not part of the sources at hand; "Weight defaults to 1.0". *)
Definition FillCorrelation_default_weight : Double_t := 1.

(** [const AliVParticle *IsMCTrueTrack(const AliVTrack *trk,
                                       const AliMCEvent *evnt) const] *)
Definition IsMCTrueTrack (trk : AliVTrack) (evnt : AliMCEvent)
  : option MCParticle :=
  let label := TMath.AbsInt (GetLabel trk) in
  match GetTrack evnt label with
  | None => None
  | Some mcpart =>
      match aodPrimary mcpart with
      | Some isPrimary => if negb isPrimary then None else Some mcpart
      | None => if negb (IsPhysicalPrimary evnt label) then None
                else Some mcpart
      end
  end.

(** [data[4] = fTriggerDecision->IsMinBias()]: a [bool] stored in a
    [double]. *)
Definition ofBool (b : bool) : Double_t := if b then 1 else 0.

(** [void FillHistogram(const TString &histname, const AliVTrack *trk,
      const AliVParticle *assocMC, const AliVEvent *recev,
      Bool_t useMCkine, Double_t weight)] *)
Definition FillHistogram (this : AliEMCalTriggerRecTrackAnalysisComponent)
    (histname : string) (trk : AliVTrack) (assocMC : option MCParticle)
    (recev : AliVEvent) (useMCkine : Bool_t) (weight : Double_t)
  : Exec unit :=
  let sign : Double_t := if fSwapEta this then -1 else 1 in
  let fillWith {A} `{AliVParticle A} (src : A) : Exec unit :=
    emit (Fill histname
            [ TMath.Abs (Pt src);
              sign * Eta src;
              Phi src;
              GetPrimaryVertexZ recev;
              ofBool (IsMinBias (fTriggerDecision this)) ]
            weight) in
  match useMCkine, assocMC with
  | true, None => ret tt
  | true, Some mc => fillWith mc
  | false, _ => fillWith trk
  end.

(** [void FillCorrelation(const AliVParticle *genparticle,
      const AliVParticle *recparticle, double weight)] *)
Definition FillCorrelation (genparticle : MCParticle)
    (recparticle : AliVTrack) (weight : Double_t) : Exec unit :=
  emit (Fill "hTrackPtCorrelation"
          [ TMath.Abs (Pt genparticle);
            TMath.Abs (Pt recparticle);
            Eta recparticle;
            Phi recparticle ]
          weight).

(** Lines 209-216 of [Process]: the cluster matched to the track.
    [testtrack] is the track itself or, for a pico track, what [GetTrack()]
    returns; it is dereferenced for its cluster index, and the cluster
    container is only touched when that index is not negative. *)
Definition matchCluster (data : AliEMCalTriggerEventData)
    (track : AliVTrack) : Exec Bool_t :=
  let testtrack :=
    match asPicoTrack track with
    | Some orig => orig
    | None => Some track
    end in
  t <- deref testtrack ;;
  if (0 <=? GetEMCALcluster t)%Z
  then
    clusters <- deref (GetClusterContainer data) ;;
    o <- At clusters (GetEMCALcluster t) ;;
    match o with
    | Some obj =>
        match asCluster obj with
        | Some clust => ret true
        | None => ret false
        end
    | None => ret false
    end
  else ret false.

(** Lines 219-226 of [Process]: the fills of one track for one trigger
    class. *)
Definition fillTrigger (this : AliEMCalTriggerRecTrackAnalysisComponent)
    (data : AliEMCalTriggerEventData) (track : AliVTrack)
    (assocMC : option MCParticle) (hasCluster : Bool_t) (weight : Double_t)
    (name : string) : Exec unit :=
  FillHistogram this (Form "hTrackHist" name) track None
    (GetRecEvent data) false weight ;;
  (if hasCluster
   then FillHistogram this (Form "hTrackInAcceptanceHist" name) track None
          (GetRecEvent data) false weight
   else ret tt) ;;
  match assocMC with
  | Some _ =>
      FillHistogram this (Form "hMCTrackHist" name) track assocMC
        (GetRecEvent data) true weight ;;
      if hasCluster
      then FillHistogram this (Form "hMCTrackInAcceptanceHist" name) track
             assocMC (GetRecEvent data) true weight
      else ret tt
  | None => ret tt
  end.

(** Lines 209-226 of [Process]: cluster matching and the loop over the
    trigger classes. *)
Definition matchAndFill (this : AliEMCalTriggerRecTrackAnalysisComponent)
    (data : AliEMCalTriggerEventData) (triggernames : list string)
    (weight : Double_t) (track : AliVTrack) (assocMC : option MCParticle)
  : Exec unit :=
  hasCluster <- matchCluster data track ;;
  forEach triggernames (fillTrigger this data track assocMC hasCluster weight).

(** [fKineCuts && !fKineCuts->IsSelected(track)] *)
Definition failsKineCuts (this : AliEMCalTriggerRecTrackAnalysisComponent)
    (track : AliVTrack) : bool :=
  match fKineCuts this with
  | Some cuts => negb (IsSelected cuts track)
  | None => false
  end.

(** [fTrackSelection && !fTrackSelection->IsTrackAccepted(track)] *)
Definition failsTrackSelection
    (this : AliEMCalTriggerRecTrackAnalysisComponent) (track : AliVTrack)
  : bool :=
  match fTrackSelection this with
  | Some selection => negb (IsTrackAccepted selection track)
  | None => false
  end.

(** Lines 197-226 of [Process]: the body of the track loop; [continue] ends
    the body.  Line 207 calls [FillCorrelation(assocMC, track)] with two
    arguments, so the weight is the default of the declaration. *)
Definition processTrack (this : AliEMCalTriggerRecTrackAnalysisComponent)
    (data : AliEMCalTriggerEventData) (triggernames : list string)
    (weight : Double_t) (track : AliVTrack) : Exec unit :=
  if failsKineCuts this track then ret tt
  else if failsTrackSelection this track
  then AliDebug this 2 (ret "Track not accepted")
  else if fRequestMCtrue this
  then
    evnt <- deref (GetMCEvent data) ;;
    match IsMCTrueTrack track evnt with
    | None => ret tt
    | Some assocMC =>
        FillCorrelation assocMC track FillCorrelation_default_weight ;;
        matchAndFill this data triggernames weight track (Some assocMC)
    end
  else matchAndFill this data triggernames weight track None.

(** Lines 192-195 of [Process]: the weight of the event. *)
Definition eventWeight (this : AliEMCalTriggerRecTrackAnalysisComponent)
    (data : AliEMCalTriggerEventData) : Double_t :=
  match fWeightHandler this, GetMCEvent data with
  | Some handler, Some mcEvent => GetEventWeight handler mcEvent
  | _, _ => 1
  end.

(** [void Process(const AliEMCalTriggerEventData *const data)] *)
Definition Process (this : AliEMCalTriggerRecTrackAnalysisComponent)
    (data : AliEMCalTriggerEventData) : Exec unit :=
  AliDebug this 1
    (container <- deref (GetMatchedTrackContainer data) ;;
     ret (FormInt "Number of matched tracks: " (GetEntries container))) ;;
  if fRequestMCtrue this && isNull (GetMCEvent data) then ret tt
  else
    let triggernames := GetMachingTriggerNames this (fTriggerMethod this) in
    match GetMatchedTrackContainer data with
    | None => AliError "No container for matched tracks"
    | Some container =>
        let weight := eventWeight this data in
        forEach (trackIter container)
          (processTrack this data triggernames weight)
    end.

(** ** The task registration macro [AddTaskUpcNano_MB] *)

(** A local variable of automatic storage: declared without initialiser it
    holds no determinate value until it is assigned. *)
Inductive Local (A : Type) : Type :=
| Indeterminate
| Assigned (a : A).

Arguments Indeterminate {A}.
Arguments Assigned {A} a.

Record AliVEventHandler : Type := mkInputHandler {
  GetDataType : string            (* "ESD" or "AOD" *)
}.

Record AliMCEventHandler : Type := mkMCHandler { }.

(** The task, as the macro configures it: [fIsMC] is what [SetIsMC] was
    handed, [fCutEta] what [SetCutEta] was handed. *)
Record AliAnalysisTaskUpcNano_MB : Type := mkTask {
  taskName : string;
  fIsMC : Local Bool_t;
  fCutEta : Bool_t
}.

Record AliAnalysisDataContainer : Type := mkContainer {
  containerName : string;
  containerFile : string
}.

Inductive Connection : Type :=
| InputConnection (task : string) (slot : Z) (container : string)
| OutputConnection (task : string) (slot : Z) (container : string).

Record AliAnalysisManager : Type := mkManager {
  GetInputEventHandler : option AliVEventHandler;
  GetMCtruthEventHandler : option AliMCEventHandler;
  GetCommonInputContainer : AliAnalysisDataContainer;
  GetCommonFileName : string;
  fTasks : list AliAnalysisTaskUpcNano_MB;
  fOutputs : list AliAnalysisDataContainer;
  fConnections : list Connection
}.

(** What a call of the macro leaves behind: the messages printed with
    [Error], the analysis manager afterwards, and the returned task
    pointer. *)
Record MacroResult : Type := mkMacroResult {
  printed : list (string * string);
  manager : option AliAnalysisManager;
  returnedTask : option AliAnalysisTaskUpcNano_MB
}.

(** [AliAnalysisTaskUpcNano_MB *AddTaskUpcNano_MB(Bool_t cutEta = kFALSE)];
    [mgr] is what [AliAnalysisManager::GetAnalysisManager()] returns. *)
Definition AddTaskUpcNano_MB (mgr : option AliAnalysisManager)
    (cutEta : Bool_t) : MacroResult :=
  match mgr with
  | None =>
      {| printed := [("AddTask_UpcNano", "No analysis manager found.")];
         manager := None;
         returnedTask := None |}
  | Some m =>
      match GetInputEventHandler m with
      | None =>
          {| printed := [("AddTask_UpcNano",
                          "This task requires an input event handler")];
             manager := Some m;
             returnedTask := None |}
      | Some handler =>
          let inputDataType := GetDataType handler in
          (* Bool_t isMC; *)
          let isMC : Local Bool_t := Indeterminate in
          let isMC :=
            match GetMCtruthEventHandler m with
            | Some _ => Assigned true
            | None => isMC
            end in
          let task :=
            {| taskName := inputDataType; fIsMC := isMC; fCutEta := cutEta |} in
          let cinput := GetCommonInputContainer m in
          let coutput :=
            {| containerName := "ListHist";
               containerFile := String.append (GetCommonFileName m) ":Upc" |} in
          {| printed := [];
             manager :=
               Some {| GetInputEventHandler := GetInputEventHandler m;
                       GetMCtruthEventHandler := GetMCtruthEventHandler m;
                       GetCommonInputContainer := GetCommonInputContainer m;
                       GetCommonFileName := GetCommonFileName m;
                       fTasks := fTasks m ++ [task];
                       fOutputs := fOutputs m ++ [coutput];
                       fConnections :=
                         fConnections m
                         ++ [InputConnection (taskName task) 0
                               (containerName cinput);
                             OutputConnection (taskName task) 1
                               (containerName coutput)] |};
             returnedTask := Some task |}
      end
  end.

(** ** Vocabulary of the statements *)

(** The candidate passes the kinematic cut and the track selection. *)
Definition passesCuts (this : AliEMCalTriggerRecTrackAnalysisComponent)
    (track : AliVTrack) : bool :=
  negb (failsKineCuts this track) && negb (failsTrackSelection this track).

(** The generated particle associated to the candidate: looked for only
    when MC truth is requested (and the generated event is there). *)
Definition assocMCof (this : AliEMCalTriggerRecTrackAnalysisComponent)
    (data : AliEMCalTriggerEventData) (track : AliVTrack)
  : option MCParticle :=
  if fRequestMCtrue this
  then match GetMCEvent data with
       | Some evnt => IsMCTrueTrack track evnt
       | None => None
       end
  else None.

(** The candidate passes every configured selection: the cuts and, when MC
    truth is requested, the MC-truth match. *)
Definition passesSelection (this : AliEMCalTriggerRecTrackAnalysisComponent)
    (data : AliEMCalTriggerEventData) (track : AliVTrack) : bool :=
  passesCuts this track &&
  (negb (fRequestMCtrue this) || negb (isNull (assocMCof this data track))).

(** The track whose cluster index is used: what [GetTrack()] returns for a
    pico track (possibly null), the track itself otherwise. *)
Definition testtrackOf (track : AliVTrack) : option AliVTrack :=
  match asPicoTrack track with
  | Some orig => orig
  | None => Some track
  end.

(** The cluster the candidate's index resolves to, if any. *)
Definition resolvedCluster (data : AliEMCalTriggerEventData)
    (track : AliVTrack) : option AliVCluster :=
  match testtrackOf track, GetClusterContainer data with
  | Some t, Some clusters =>
      match slotAt clusters (GetEMCALcluster t) with
      | Some o => asCluster o
      | None => None
      end
  | _, _ => None
  end.

(** Line 215 dereferences a null pointer for the candidate: it is a pico
    track without the track it wraps, or its cluster index is not negative
    while the event has no cluster container. *)
Definition clusterLookupFaults (data : AliEMCalTriggerEventData)
    (track : AliVTrack) : bool :=
  match testtrackOf track with
  | None => true
  | Some t =>
      (0 <=? GetEMCALcluster t)%Z && isNull (GetClusterContainer data)
  end.

(** The report of [At] for the candidate: its cluster index, when not
    negative, lies beyond the slots of the cluster container. *)
Definition boundsReport (data : AliEMCalTriggerEventData)
    (track : AliVTrack) : list LogEvent :=
  match testtrackOf track, GetClusterContainer data with
  | Some t, Some clusters =>
      if ((0 <=? GetEMCALcluster t)
          && (Z.of_nat (List.length clusters) <=? GetEMCALcluster t))%Z
      then [BoundsError (GetEMCALcluster t) (Z.of_nat (List.length clusters))]
      else []
  | _, _ => []
  end.

(** No selected candidate of the container makes line 215 dereference a
    null pointer: every cluster lookup of the event is defined. *)
Definition clusterLookupsDefined
    (this : AliEMCalTriggerRecTrackAnalysisComponent)
    (data : AliEMCalTriggerEventData) (container : TClonesArray) : Prop :=
  forall track,
    In track (trackIter container) ->
    passesSelection this data track = true ->
    clusterLookupFaults data track = false.

(** The five numbers of a per-trigger fill, as the claims word them:
    (|pt|, eta with the configured sign, phi, vertex z, min. bias flag). *)
Definition kineTuple {A} `{AliVParticle A}
    (this : AliEMCalTriggerRecTrackAnalysisComponent) (recev : AliVEvent)
    (src : A) : list Double_t :=
  [ Qabs (Pt src);
    if fSwapEta this then - Eta src else Eta src;
    Phi src;
    GetPrimaryVertexZ recev;
    if IsMinBias (fTriggerDecision this) then 1 else 0 ].

(** The four numbers of a correlation fill. *)
Definition corrTuple (gen : MCParticle) (rec : AliVTrack) : list Double_t :=
  [ Qabs (Pt gen); Qabs (Pt rec); Eta rec; Phi rec ].

Definition named (prefix : string) (f : FillRecord) : bool :=
  String.prefix prefix (fillName f).

Definition isTrackHist := named "hTrackHist".
Definition isMCTrackHist := named "hMCTrackHist".
Definition isMCTrackInAcceptanceHist := named "hMCTrackInAcceptanceHist".
Definition isCorrelation (f : FillRecord) : bool :=
  String.eqb (fillName f) "hTrackPtCorrelation".

(** A fill that needs the generated event. *)
Definition isMCFill (f : FillRecord) : bool :=
  isMCTrackHist f || isMCTrackInAcceptanceHist f || isCorrelation f.

(** The fills the body of the track loop makes for one candidate. *)
Definition trackFills (this : AliEMCalTriggerRecTrackAnalysisComponent)
    (data : AliEMCalTriggerEventData) (track : AliVTrack)
  : list FillRecord :=
  fills (trace (processTrack this data
                  (GetMachingTriggerNames this (fTriggerMethod this))
                  (eventWeight this data) track)).

(** [hasCluster] as line 215 computes it. *)
Definition hasClusterOf (data : AliEMCalTriggerEventData)
    (track : AliVTrack) : bool :=
  match testtrackOf track with
  | Some t =>
      (0 <=? GetEMCALcluster t)%Z
      && negb (isNull (resolvedCluster data track))
  | None => false
  end.

(** The fills of one candidate for one trigger class. *)
Definition triggerFills (this : AliEMCalTriggerRecTrackAnalysisComponent)
    (data : AliEMCalTriggerEventData) (track : AliVTrack)
    (assocMC : option MCParticle) (hasCluster : bool) (weight : Double_t)
    (name : string) : list FillRecord :=
  let recev := GetRecEvent data in
  mkFill (Form "hTrackHist" name) (kineTuple this recev track) weight
  :: (if hasCluster
      then [mkFill (Form "hTrackInAcceptanceHist" name)
              (kineTuple this recev track) weight]
      else [])
  ++ match assocMC with
     | Some mc =>
         mkFill (Form "hMCTrackHist" name) (kineTuple this recev mc) weight
         :: (if hasCluster
             then [mkFill (Form "hMCTrackInAcceptanceHist" name)
                     (kineTuple this recev mc) weight]
             else [])
     | None => []
     end.

(** A fill as the event that records it. *)
Definition fillEvent (f : FillRecord) : LogEvent :=
  Fill (fillName f) (fillData f) (fillWeight f).

(** The correlation fill of a candidate with an associated particle. *)
Definition corrFills (assocMC : option MCParticle) (track : AliVTrack)
  : list FillRecord :=
  match assocMC with
  | Some mc =>
      [mkFill "hTrackPtCorrelation" (corrTuple mc track)
         FillCorrelation_default_weight]
  | None => []
  end.

(** The trace of a round for a candidate that passes selection and reaches
    the loop over the trigger classes: the correlation fill, the report of
    [At], the fills of every trigger class. *)
Definition selectedTrace (this : AliEMCalTriggerRecTrackAnalysisComponent)
    (data : AliEMCalTriggerEventData) (names : list string)
    (weight : Double_t) (track : AliVTrack) : list LogEvent :=
  map fillEvent (corrFills (assocMCof this data track) track)
  ++ boundsReport data track
  ++ map fillEvent
       (flat_map (triggerFills this data track (assocMCof this data track)
                    (hasClusterOf data track) weight) names).

(** All fills of a candidate that passes selection and reaches the loop over
    the trigger classes. *)
Definition selectedFills (this : AliEMCalTriggerRecTrackAnalysisComponent)
    (data : AliEMCalTriggerEventData) (names : list string)
    (weight : Double_t) (track : AliVTrack) : list FillRecord :=
  corrFills (assocMCof this data track) track
  ++ flat_map (triggerFills this data track (assocMCof this data track)
                 (hasClusterOf data track) weight) names.

(** The physical-primary flag of a particle found at [label]: read from the
    particle when it is an AOD particle, asked of the event otherwise. *)
Definition physicalPrimaryFlag (evnt : AliMCEvent) (label : Int_t)
    (mcpart : MCParticle) : bool :=
  match aodPrimary mcpart with
  | Some flag => flag
  | None => IsPhysicalPrimary evnt label
  end.

(** The condition of the specification for MC-truth fills: MC truth is
    requested, a particle exists in the MC event at the absolute value of
    the candidate's label, and its physical-primary flag is set. *)
Definition mcTruthResolved (this : AliEMCalTriggerRecTrackAnalysisComponent)
    (data : AliEMCalTriggerEventData) (track : AliVTrack) : Prop :=
  fRequestMCtrue this = true
  /\ exists evnt mcpart,
       GetMCEvent data = Some evnt
       /\ GetTrack evnt (Z.abs (GetLabel track)) = Some mcpart
       /\ physicalPrimaryFlag evnt (Z.abs (GetLabel track)) mcpart = true.

(** ** Concrete events

    The end-to-end scenarios of the specification: one candidate with
    pt = 5.0, eta = 0.3, phi = 1.0 and label 7, vertex z = 2.0, a minimum
    bias event that satisfies the trigger class "MinBias" only. *)

Module Scenario.

Definition component (requestMC : bool)
    (handler : option AliEMCalTriggerWeightHandler) (debugLevel : Z)
  : AliEMCalTriggerRecTrackAnalysisComponent :=
  {| fKineCuts := None;
     fWeightHandler := handler;
     fTriggerDecision := mkTriggerDecision true;
     GetMachingTriggerNames := fun _ => ["MinBias"];
     fTrackSelection := None;
     fSwapEta := false;
     fTriggerMethod := kTriggerString;
     fRequestMCtrue := requestMC;
     fDebugLevel := debugLevel |}.

Definition track (clusterIndex : Int_t) : AliVTrack :=
  VTrack (mkTrackParam 5 (3 # 10) 1 7 clusterIndex).

(** Four slots, a cluster in the last one only. *)
Definition clusters : TClonesArray :=
  [None; None; None; Some (ClusterObject (mkCluster 1))].

(** A generated event whose particle 7 is a physical primary with
    pt = 4.8. *)
Definition generated : AliMCEvent :=
  {| GetTrack := fun label =>
       if (label =? 7)%Z then Some (mkMCParticle (48 # 10) (3 # 10) 1 None)
       else None;
     IsPhysicalPrimary := fun label => (label =? 7)%Z |}.

Definition doubleWeight : AliEMCalTriggerWeightHandler :=
  {| GetEventWeight := fun _ => 2 |}.

Definition event (mc : option AliMCEvent) (clusterContainer : option TClonesArray)
    (tracks : option TClonesArray) : AliEMCalTriggerEventData :=
  {| GetRecEvent := mkRecEvent 2;
     GetMCEvent := mc;
     GetClusterContainer := clusterContainer;
     GetMatchedTrackContainer := tracks |}.

(** An analysis manager with an ESD input handler and no MC-truth
    handler. *)
Definition dataManager : AliAnalysisManager :=
  {| GetInputEventHandler := Some (mkInputHandler "ESD");
     GetMCtruthEventHandler := None;
     GetCommonInputContainer := mkContainer "cAUTO_INPUT" "";
     GetCommonFileName := "AnalysisResults.root";
     fTasks := [];
     fOutputs := [];
     fConnections := [] |}.

(** Components: MC truth not requested; requested; requested together
    with an event weight of 2. *)
Definition plain := component false None 0.
Definition mcTruth := component true None 0.
Definition mcTruthWeighted := component true (Some doubleWeight) 0.

(** Events: without any container; with the candidate and no cluster
    (index -1); with the candidate matched to the cluster in slot 3; with
    the cluster index 3 but no cluster container; the second and the third
    again with the generated event. *)
Definition noContainers := event None None None.
Definition unmatched :=
  event None None (Some [Some (TrackObject (track (-1)))]).
Definition matched :=
  event None (Some clusters) (Some [Some (TrackObject (track 3))]).
Definition indexWithoutClusters :=
  event None None (Some [Some (TrackObject (track 3))]).
Definition simulated :=
  event (Some generated) None (Some [Some (TrackObject (track (-1)))]).
Definition simulatedMatched :=
  event (Some generated) (Some clusters)
    (Some [Some (TrackObject (track 3))]).

(** More events: the generated event with the cluster index 3 but no
    cluster container; a cluster index beyond the four slots; a pico track
    that has lost the track it was made from. *)
Definition simulatedWithoutClusters :=
  event (Some generated) None (Some [Some (TrackObject (track 3))]).
Definition indexBeyondClusters :=
  event None (Some clusters) (Some [Some (TrackObject (track 9))]).
Definition strayPicoTrack :=
  event None (Some clusters)
    (Some [Some (TrackObject (PicoTrack (mkTrackParam 5 (3 # 10) 1 7 3) None))]).

End Scenario.

(** ** The histogram schema [CreateHistos] *)

(** [Form("<before>%s<after>", s)] *)
Definition FormIn (before s after : string) : string :=
  String.append before (String.append s after).

(** A [std::map<std::string,std::string>]: its pairs in the order of the
    keys, which is the order of iteration. *)
Definition std_map := list (string * string).

(** [m.insert(std::pair<std::string,std::string>(key, value))]: the pair
    takes its place in the order of the keys; a key that is there already
    keeps its value. *)
Fixpoint map_insert (key value : string) (m : std_map) : std_map :=
  match m with
  | [] => [(key, value)]
  | (k, v) :: rest =>
      match String.compare key k with
      | Lt => (key, value) :: m
      | Eq => m
      | Gt => (k, v) :: map_insert key value rest
      end
  end.

(** A [TAxis] as [DefineAxis] is asked to make it: from the binning that
    [fBinning->GetBinning(binning)] hands out, or with a number of bins of
    equal width between two limits. *)
Inductive TAxis : Type :=
| BinningAxis (name binning : string)
| UniformAxis (name : string) (nbins : Z) (min max : Double_t).

Definition axisName (a : TAxis) : string :=
  match a with
  | BinningAxis name _ => name
  | UniformAxis name _ _ _ => name
  end.

(** The arguments of one call of [fHistos->CreateTHnSparse]; [hOption] is
    [None] when the call leaves the option to its default. *)
Record THnSparseDef : Type := mkTHnSparse {
  hName : string;
  hTitle : string;
  hDim : nat;
  hAxes : list TAxis;
  hOption : option string
}.

(** What [CreateHistos] does, step by step: an axis object comes into being
    ([DefineAxis] returns a pointer that the caller owns), a histogram is
    declared, an axis object is deleted.  Axis objects are told apart by the
    number of the [DefineAxis] call that made them. *)
Inductive SchemaEvent : Type :=
| NewAxis (id : nat) (axis : TAxis)
| CreateTHnSparse (def : THnSparseDef)
| DeleteAxis (id : nat).

(** [const char *triggernames[11]] *)
Definition triggernames : list string :=
  [ "MinBias"; "EMCJHigh"; "EMCJLow"; "EMCGHigh"; "EMCGLow"; "EMCHighBoth";
    "EMCHighGammaOnly"; "EMCHighJetOnly"; "EMCLowBoth"; "EMCLowGammaOnly";
    "EMCLowJetOnly" ].

(** The eleven [insert] calls of lines 109-119. *)
Definition triggerCombinations : std_map :=
  fold_left (fun m kv => map_insert (fst kv) (snd kv) m)
    [ ("MinBias", "min. bias events");
      ("EMCJHigh", "jet-triggered events (high threshold)");
      ("EMCJLow", "jet-triggered events (low threshold)");
      ("EMCGHigh", "gamma-triggered events (high threshold)");
      ("EMCGLow", "gamma-triggered events (low threshold)");
      ("EMCHighBoth", "jet and gamma triggered events (high threshold)");
      ("EMCHighGammaOnly",
       "exclusively gamma-triggered events (high threshold)");
      ("EMCHighJetOnly", "exclusively jet-triggered events (high threshold)");
      ("EMCLowBoth", "jet and gamma triggered events (low threshold)");
      ("EMCLowGammaOnly", "exclusively gamma-triggered events (low threshold)");
      ("EMCLowJetOnly", "exclusively-triggered events (low threshold)") ]
    [].

(** [const TAxis *trackaxes[5]] and [const TAxis *corraxes[4]], each axis
    with the number of the [DefineAxis] call that makes it. *)
Definition trackaxes : list (nat * TAxis) :=
  [ (0%nat, BinningAxis "pt" "pt");
    (1%nat, BinningAxis "eta" "eta");
    (2%nat, BinningAxis "phi" "phi");
    (3%nat, BinningAxis "zvertex" "zvertex");
    (4%nat, UniformAxis "mbtrigger" 2 (- (1 # 2)) (3 # 2)) ].

Definition corraxes : list (nat * TAxis) :=
  [ (5%nat, BinningAxis "ptgen" "pt");
    (6%nat, BinningAxis "ptrec" "pt");
    (7%nat, BinningAxis "eta" "eta");
    (8%nat, BinningAxis "phi" "phi") ].

(** Lines 136-142: the four histograms of one trigger class. *)
Definition createTriggerHistos (entry : string * string)
  : list SchemaEvent :=
  let name := fst entry in
  let title := snd entry in
  let axes := map snd trackaxes in
  [ CreateTHnSparse
      (mkTHnSparse (Form "hTrackHist" name)
         (FormIn "Track-based data for " title " events")
         5 axes (Some "s"));
    CreateTHnSparse
      (mkTHnSparse (Form "hTrackInAcceptanceHist" name)
         (FormIn "Track-based data for " title
            " events  for tracks matched to EMCal clusters")
         5 axes (Some "s"));
    CreateTHnSparse
      (mkTHnSparse (Form "hMCTrackHist" name)
         (FormIn "Track-based data for " title " events with MC kinematics")
         5 axes (Some "s"));
    CreateTHnSparse
      (mkTHnSparse (Form "hMCTrackInAcceptanceHist" name)
         (FormIn "Track-based data for " title
            " events with MC kinematics for tracks matched to EMCal clusters")
         5 axes (Some "s")) ].

(** [void CreateHistos()], after the call of the base class (whose source
    is not at hand): the track axes are defined, the histograms of every
    trigger class are declared in the order of the map, then the
    correlation axes and the correlation matrix, and at the end the five
    track axes are deleted. *)
Definition CreateHistos : list SchemaEvent :=
  map (fun a => NewAxis (fst a) (snd a)) trackaxes
  ++ flat_map createTriggerHistos triggerCombinations
  ++ map (fun a => NewAxis (fst a) (snd a)) corraxes
  ++ [ CreateTHnSparse
         (mkTHnSparse "hTrackPtCorrelation" "Correlation matrix for track pt"
            4 (map snd corraxes) None) ]
  ++ flat_map (fun iaxis =>
                 match nth_error trackaxes iaxis with
                 | Some a => [DeleteAxis (fst a)]
                 | None => []
                 end) (seq 0 5).

(** The histograms a schema trace declares, the axis objects it makes and
    those it deletes. *)
Fixpoint created (tr : list SchemaEvent) : list THnSparseDef :=
  match tr with
  | [] => []
  | CreateTHnSparse def :: rest => def :: created rest
  | _ :: rest => created rest
  end.

Fixpoint allocated (tr : list SchemaEvent) : list nat :=
  match tr with
  | [] => []
  | NewAxis id _ :: rest => id :: allocated rest
  | _ :: rest => allocated rest
  end.

Fixpoint deleted (tr : list SchemaEvent) : list nat :=
  match tr with
  | [] => []
  | DeleteAxis id :: rest => id :: deleted rest
  | _ :: rest => deleted rest
  end.

(** The declared histogram of a given name, if any. *)
Definition lookupHist (name : string) (defs : list THnSparseDef)
  : option THnSparseDef :=
  find (fun h => String.eqb (hName h) name) defs.

(** ** Construction *)

(** [AliEMCalTriggerRecTrackAnalysisComponent(const char *name)] and the
    dummy constructor: the four members of the class are initialised as
    lines 52-74 say; the members of the base class are what its constructor
    and the framework make them. *)
Definition newRecTrackComponent
    (kineCuts : option AliEMCalTriggerKineCuts)
    (weightHandler : option AliEMCalTriggerWeightHandler)
    (triggerDecision : AliEMCalTriggerAnaTriggerDecision)
    (matchingNames : ETriggerMethod_t -> list string) (debugLevel : Z)
  : AliEMCalTriggerRecTrackAnalysisComponent :=
  {| fKineCuts := kineCuts;
     fWeightHandler := weightHandler;
     fTriggerDecision := triggerDecision;
     GetMachingTriggerNames := matchingNames;
     fTrackSelection := None;
     fSwapEta := false;
     fTriggerMethod := kTriggerString;
     fRequestMCtrue := false;
     fDebugLevel := debugLevel |}.

(** ** Events and components that differ in one place *)

Definition withTracks (data : AliEMCalTriggerEventData)
    (tracks : option TClonesArray) : AliEMCalTriggerEventData :=
  {| GetRecEvent := GetRecEvent data;
     GetMCEvent := GetMCEvent data;
     GetClusterContainer := GetClusterContainer data;
     GetMatchedTrackContainer := tracks |}.

Definition withClusters (data : AliEMCalTriggerEventData)
    (clusters : option TClonesArray) : AliEMCalTriggerEventData :=
  {| GetRecEvent := GetRecEvent data;
     GetMCEvent := GetMCEvent data;
     GetClusterContainer := clusters;
     GetMatchedTrackContainer := GetMatchedTrackContainer data |}.

Definition withMCEvent (data : AliEMCalTriggerEventData)
    (mc : option AliMCEvent) : AliEMCalTriggerEventData :=
  {| GetRecEvent := GetRecEvent data;
     GetMCEvent := mc;
     GetClusterContainer := GetClusterContainer data;
     GetMatchedTrackContainer := GetMatchedTrackContainer data |}.

Definition withSwapEta (this : AliEMCalTriggerRecTrackAnalysisComponent)
    (swap : Bool_t) : AliEMCalTriggerRecTrackAnalysisComponent :=
  {| fKineCuts := fKineCuts this;
     fWeightHandler := fWeightHandler this;
     fTriggerDecision := fTriggerDecision this;
     GetMachingTriggerNames := GetMachingTriggerNames this;
     fTrackSelection := fTrackSelection this;
     fSwapEta := swap;
     fTriggerMethod := fTriggerMethod this;
     fRequestMCtrue := fRequestMCtrue this;
     fDebugLevel := fDebugLevel this |}.

(** The same fill with the sign of eta changed, for the fills whose eta
    depends on [fSwapEta]: all but those of the correlation matrix. *)
Definition flipEta (f : FillRecord) : FillRecord :=
  if isCorrelation f then f
  else match fillData f with
       | pt :: eta :: rest =>
           mkFill (fillName f) (pt :: - eta :: rest) (fillWeight f)
       | _ => f
       end.

(** 1 for [true], 0 for [false]. *)
Definition count (b : bool) : nat := if b then 1%nat else 0%nat.

(** ** The execution monad *)

Section ExecLemmas.

Context {A B : Type}.

(** Sequencing after a step that emits nothing, after a single event, and
    after a pointer that is not null. *)
Lemma bind_ret_l (a : A) (f : A -> Exec B) : bind ([], Some a) f = f a.
Proof. cbn. unfold trace, result. now destruct (f a). Qed.

Lemma bind_emit (e : LogEvent) (k : Exec B) :
  bind (emit e) (fun _ => k) = (e :: trace k, result k).
Proof. reflexivity. Qed.

Lemma bind_deref_some (a : A) (f : A -> Exec B) :
  bind (deref (Some a)) f = f a.
Proof. cbn. unfold trace, result. now destruct (f a). Qed.

Lemma bind_some (tr : list LogEvent) (a : A) (f : A -> Exec B) :
  bind (tr, Some a) f = (tr ++ trace (f a), result (f a)).
Proof. reflexivity. Qed.

End ExecLemmas.

(** An execution without value returns iff it ends in [tt]. *)
Lemma result_unit (m : Exec unit) : returned m <-> result m = Some tt.
Proof.
  unfold returned. destruct (result m) as [[]|]; split; congruence.
Qed.

(** The fills of two stretches of a trace. *)
Lemma fills_app (a b : list LogEvent) : fills (a ++ b) = fills a ++ fills b.
Proof.
  induction a as [|e a IH]; [reflexivity|].
  destruct e; cbn; rewrite IH; reflexivity.
Qed.

(** The [AliError] lines of two stretches of a trace. *)
Lemma errors_app (a b : list LogEvent) :
  errors (a ++ b) = errors a ++ errors b.
Proof.
  induction a as [|e a IH]; [reflexivity|].
  destruct e; cbn; rewrite IH; reflexivity.
Qed.

(** A loop returns iff each round does, and then its trace is the
    concatenation of the traces of the rounds. *)
Lemma forEach_returned {A} (l : list A) (body : A -> Exec unit) :
  returned (forEach l body) <-> Forall (fun x => returned (body x)) l.
Proof.
  induction l as [|x l IH]; cbn.
  - split; [constructor | unfold returned; cbn; congruence].
  - destruct (body x) as [tr [[]|]] eqn:E; cbn.
    + unfold returned in *. cbn. rewrite IH. split.
      * intros H. constructor; [rewrite E; cbn; congruence | exact H].
      * intros H. inversion H; assumption.
    + unfold returned; cbn. split; [congruence|].
      intros H. inversion H as [|? ? Hx _]; subst.
      rewrite E in Hx. exact Hx.
Qed.

(** The trace of a loop all of whose rounds return. *)
Lemma forEach_trace {A} (l : list A) (body : A -> Exec unit) :
  Forall (fun x => returned (body x)) l ->
  trace (forEach l body) = flat_map (fun x => trace (body x)) l.
Proof.
  induction 1 as [|x l Hx _ IH]; [reflexivity|].
  cbn. apply result_unit in Hx.
  destruct (body x) as [tr r]; cbn in *; subst r; cbn.
  now rewrite IH.
Qed.

(** Whatever happens, a loop's fills come from rounds of the loop. *)
Lemma forEach_fills_in {A} (l : list A) (body : A -> Exec unit) f :
  In f (fills (trace (forEach l body))) ->
  exists x, In x l /\ In f (fills (trace (body x))).
Proof.
  induction l as [|x l IH]; cbn; [tauto|].
  destruct (body x) as [tr [[]|]] eqn:E; cbn.
  - rewrite fills_app, in_app_iff. intros [H|H].
    + exists x. rewrite E. auto.
    + destruct (IH H) as (y & Hy & Hf). exists y. auto.
  - intros H. exists x. rewrite E. auto.
Qed.

(** ** Arithmetic on the recorded numbers *)

(** [TMath::Abs] is the absolute value, on [Double_t] and on [Int_t]. *)
Lemma TMath_Abs_Qabs (d : Double_t) : TMath.Abs d = Qabs d.
Proof.
  destruct d as [n p]. unfold TMath.Abs, Qle_bool, Qabs, Qopp. cbn.
  destruct n; reflexivity.
Qed.

Lemma TMath_AbsInt_wrap (d : Int_t) :
  TMath.AbsInt d = TMath.wrapInt (Z.abs d).
Proof.
  unfold TMath.AbsInt. destruct (Z.leb_spec 0 d); f_equal; lia.
Qed.

(** On [Int_t], except at the least value, where the negation wraps. *)
Lemma TMath_AbsInt_Zabs (d : Int_t) :
  (- 2 ^ 31 < d < 2 ^ 31)%Z -> TMath.AbsInt d = Z.abs d.
Proof.
  intros H. rewrite TMath_AbsInt_wrap. unfold TMath.wrapInt.
  rewrite Z.mod_small; lia.
Qed.

Lemma TMath_AbsInt_least : TMath.AbsInt (- 2 ^ 31) = (- 2 ^ 31)%Z.
Proof. reflexivity. Qed.

(** Multiplying by the sign factor of [FillHistogram] flips the sign or
    leaves the number as it is. *)
Lemma swap_sign (swap : bool) (x : Double_t) :
  (if swap then -1 else 1) * x = if swap then - x else x.
Proof.
  destruct x as [n p]. destruct swap; unfold Qmult, Qopp; cbn;
    destruct n; reflexivity.
Qed.

(** ** The fill routines *)

(** A trace made of fills only has exactly these fills. *)
Lemma fills_fillEvent (l : list FillRecord) : fills (map fillEvent l) = l.
Proof.
  induction l as [|[n d w] l IH]; cbn; [reflexivity | now rewrite IH].
Qed.

(** Fills are no [AliError] lines. *)
Lemma errors_fillEvent (l : list FillRecord) : errors (map fillEvent l) = [].
Proof. induction l as [|[n d w] l IH]; cbn; auto. Qed.

Section FillRoutines.

Variable this : AliEMCalTriggerRecTrackAnalysisComponent.

(** With reconstructed kinematics the tuple is that of the track, with MC
    kinematics that of the associated particle; asking for MC kinematics
    without a particle does nothing. *)
Lemma FillHistogram_rec histname trk assocMC recev weight :
  FillHistogram this histname trk assocMC recev false weight
  = emit (Fill histname (kineTuple this recev trk) weight).
Proof.
  unfold FillHistogram, kineTuple, ofBool.
  rewrite TMath_Abs_Qabs, swap_sign. reflexivity.
Qed.

Lemma FillHistogram_mc histname trk mc recev weight :
  FillHistogram this histname trk (Some mc) recev true weight
  = emit (Fill histname (kineTuple this recev mc) weight).
Proof.
  unfold FillHistogram, kineTuple, ofBool.
  rewrite TMath_Abs_Qabs, swap_sign. reflexivity.
Qed.

Lemma FillHistogram_guard histname trk recev weight :
  FillHistogram this histname trk None recev true weight = ret tt.
Proof. reflexivity. Qed.

(** The correlation fill. *)
Lemma FillCorrelation_eq gen rec weight :
  FillCorrelation gen rec weight
  = emit (Fill "hTrackPtCorrelation" (corrTuple gen rec) weight).
Proof.
  unfold FillCorrelation, corrTuple. now rewrite !TMath_Abs_Qabs.
Qed.

(** The fills of one trigger class, and of the loop over the classes: the
    loop always returns. *)
Lemma fillTrigger_eq data track assocMC hasCluster weight name :
  fillTrigger this data track assocMC hasCluster weight name
  = (map fillEvent (triggerFills this data track assocMC hasCluster weight name),
     Some tt).
Proof.
  unfold fillTrigger, triggerFills.
  rewrite !FillHistogram_rec.
  destruct assocMC as [mc|], hasCluster;
    rewrite ?FillHistogram_mc, ?FillHistogram_rec; reflexivity.
Qed.

Lemma fillTrigger_loop data track assocMC hasCluster weight names :
  forEach names (fillTrigger this data track assocMC hasCluster weight)
  = (map fillEvent
       (flat_map (triggerFills this data track assocMC hasCluster weight) names),
     Some tt).
Proof.
  induction names as [|n names IH]; [reflexivity|].
  cbn [forEach flat_map]. rewrite fillTrigger_eq, IH, map_app. reflexivity.
Qed.

End FillRoutines.

(** ** Cluster matching *)

(** [At] reports an index outside the array and returns what the slot
    holds. *)
Lemma At_eq (c : TClonesArray) (i : Int_t) :
  At c i
  = ((if ((0 <=? i) && (i <? Z.of_nat (List.length c)))%Z then []
      else [BoundsError i (Z.of_nat (List.length c))]),
     Some (slotAt c i)).
Proof.
  unfold At. destruct ((0 <=? i) && (i <? Z.of_nat (List.length c)))%Z;
    reflexivity.
Qed.

(** Cluster matching either dereferences a null pointer, before anything
    is reported, or yields [hasCluster] after the report of [At]. *)
Lemma matchCluster_eq data track :
  matchCluster data track
  = if clusterLookupFaults data track then ([], None)
    else (boundsReport data track, Some (hasClusterOf data track)).
Proof.
  unfold matchCluster, clusterLookupFaults, hasClusterOf, resolvedCluster,
    boundsReport.
  fold (testtrackOf track).
  destruct (testtrackOf track) as [t|]; [|reflexivity].
  rewrite bind_deref_some.
  destruct (Z.leb_spec 0 (GetEMCALcluster t)) as [Hpos|Hneg]; cbn [andb].
  - destruct (GetClusterContainer data) as [clusters|]; [|reflexivity].
    rewrite bind_deref_some, At_eq, (proj2 (Z.leb_le _ _) Hpos).
    cbn [isNull andb].
    replace (GetEMCALcluster t <? Z.of_nat (List.length clusters))%Z
      with (negb (Z.of_nat (List.length clusters) <=? GetEMCALcluster t)%Z)
      by (rewrite Z.leb_antisym, negb_involutive; reflexivity).
    destruct (Z.of_nat (List.length clusters) <=? GetEMCALcluster t)%Z;
      cbn [negb]; unfold bind; cbn;
      (destruct (slotAt clusters (GetEMCALcluster t)) as [o|];
       [destruct (asCluster o)|]; reflexivity).
  - destruct (GetClusterContainer data); reflexivity.
Qed.

(** [hasCluster] holds iff the track whose index is used is there, its
    cluster index is not negative and resolves to a cluster. *)
Lemma hasClusterOf_spec data track :
  hasClusterOf data track = true <->
  exists t,
    testtrackOf track = Some t
    /\ (0 <= GetEMCALcluster t)%Z
    /\ exists clust, resolvedCluster data track = Some clust.
Proof.
  unfold hasClusterOf.
  destruct (testtrackOf track) as [t|] eqn:Ht.
  - rewrite andb_true_iff, Z.leb_le.
    destruct (resolvedCluster data track) as [c|]; cbn; split.
    + intros [H _]. exists t. repeat split; [exact H | now exists c].
    + intros (t' & Heq & H & _). injection Heq as <-. auto.
    + intros [_ H]. discriminate.
    + intros (t' & _ & _ & [c H]). discriminate.
  - split; [discriminate|]. intros (t & Heq & _). discriminate.
Qed.

(** Nothing but the report of [At] is in the trace of a lookup, and the
    report is no fill and no [AliError]. *)
Lemma fills_boundsReport data track : fills (boundsReport data track) = [].
Proof.
  unfold boundsReport. destruct (testtrackOf track); [|reflexivity].
  destruct (GetClusterContainer data); [|reflexivity].
  destruct (_ && _); reflexivity.
Qed.

Lemma errors_boundsReport data track : errors (boundsReport data track) = [].
Proof.
  unfold boundsReport. destruct (testtrackOf track); [|reflexivity].
  destruct (GetClusterContainer data); [|reflexivity].
  destruct (_ && _); reflexivity.
Qed.

(** ** The body of the track loop *)

Section TrackLoop.

Variable this : AliEMCalTriggerRecTrackAnalysisComponent.
Variable data : AliEMCalTriggerEventData.
Variable names : list string.
Variable weight : Double_t.

(** Cluster matching followed by the loop over the trigger classes. *)
Lemma matchAndFill_eq track assocMC :
  matchAndFill this data names weight track assocMC
  = if clusterLookupFaults data track then ([], None)
    else (boundsReport data track
          ++ map fillEvent
               (flat_map (triggerFills this data track assocMC
                            (hasClusterOf data track) weight) names),
          Some tt).
Proof.
  unfold matchAndFill. rewrite matchCluster_eq.
  destruct (clusterLookupFaults data track); [reflexivity|].
  rewrite bind_some, fillTrigger_loop. reflexivity.
Qed.

(** A candidate that fails a cut is left without any fill. *)
Lemma processTrack_cut track :
  passesCuts this track = false ->
  fills (trace (processTrack this data names weight track)) = []
  /\ returned (processTrack this data names weight track).
Proof.
  unfold passesCuts, processTrack, returned. intros H.
  destruct (failsKineCuts this track); [cbn; split; congruence|].
  destruct (failsTrackSelection this track); [|discriminate].
  unfold AliDebug. destruct (2 <=? fDebugLevel this)%Z; cbn; split; congruence.
Qed.

(** A candidate without MC-truth match, when one is requested, is left
    without any fill. *)
Lemma processTrack_unmatched track :
  passesCuts this track = true ->
  passesSelection this data track = false ->
  fills (trace (processTrack this data names weight track)) = []
  /\ (GetMCEvent data <> None ->
      returned (processTrack this data names weight track)).
Proof.
  unfold passesSelection, assocMCof, passesCuts, processTrack, returned.
  intros Hc. rewrite Hc. apply andb_true_iff in Hc as [Hk Hs].
  apply negb_true_iff in Hk, Hs. rewrite Hk, Hs. cbn [andb].
  destruct (fRequestMCtrue this); [|discriminate].
  destruct (GetMCEvent data) as [evnt|].
  - rewrite bind_deref_some.
    destruct (IsMCTrueTrack track evnt); [discriminate|].
    cbn. split; congruence.
  - cbn. split; congruence.
Qed.

(** A candidate that passes selection gets its correlation fill, if it has
    an associated particle, and then the fills of every trigger class,
    unless the cluster lookup dereferences a null pointer. *)
Lemma processTrack_selected track :
  passesSelection this data track = true ->
  processTrack this data names weight track
  = if clusterLookupFaults data track
    then (map fillEvent (corrFills (assocMCof this data track) track), None)
    else (selectedTrace this data names weight track, Some tt).
Proof.
  unfold passesSelection, selectedTrace, assocMCof, passesCuts, processTrack.
  intros H. apply andb_true_iff in H as [Hc Hm].
  apply andb_true_iff in Hc as [Hk Hs].
  apply negb_true_iff in Hk, Hs. rewrite Hk, Hs.
  destruct (fRequestMCtrue this).
  - destruct (GetMCEvent data) as [evnt|]; [|discriminate].
    rewrite bind_deref_some.
    destruct (IsMCTrueTrack track evnt) as [mc|]; [|discriminate].
    rewrite FillCorrelation_eq, bind_emit, matchAndFill_eq.
    destruct (clusterLookupFaults data track); reflexivity.
  - rewrite matchAndFill_eq.
    destruct (clusterLookupFaults data track); reflexivity.
Qed.

(** The fills and the [AliError] lines of such a trace. *)
Lemma fills_selectedTrace track :
  fills (selectedTrace this data names weight track)
  = selectedFills this data names weight track.
Proof.
  unfold selectedTrace, selectedFills.
  rewrite !fills_app, !fills_fillEvent, fills_boundsReport. reflexivity.
Qed.

Lemma errors_selectedTrace track :
  errors (selectedTrace this data names weight track) = [].
Proof.
  unfold selectedTrace.
  rewrite !errors_app, !errors_fillEvent, errors_boundsReport. reflexivity.
Qed.

(** A round for a selected candidate returns only if its cluster lookup is
    defined. *)
Lemma processTrack_returned_safe track :
  passesSelection this data track = true ->
  returned (processTrack this data names weight track) ->
  clusterLookupFaults data track = false.
Proof.
  intros Hs. rewrite (processTrack_selected _ Hs). unfold returned.
  destruct (clusterLookupFaults data track); cbn; congruence.
Qed.

(** Whatever the outcome, the fills of a round are fills of a selected
    candidate. *)
Lemma processTrack_fills_in track f :
  In f (fills (trace (processTrack this data names weight track))) ->
  passesSelection this data track = true
  /\ In f (selectedFills this data names weight track).
Proof.
  destruct (passesSelection this data track) eqn:Hs.
  - rewrite (processTrack_selected _ Hs).
    destruct (clusterLookupFaults data track); cbn [trace fst];
      rewrite ?fills_selectedTrace, ?fills_fillEvent; intros H; split; auto.
    unfold selectedFills. apply in_or_app. now left.
  - destruct (passesCuts this track) eqn:Hc.
    + destruct (processTrack_unmatched _ Hc Hs) as [-> _]. intros [].
    + destruct (processTrack_cut _ Hc) as [-> _]. intros [].
Qed.

End TrackLoop.

(** ** The event entry point *)

Section ProcessLemmas.

Variable this : AliEMCalTriggerRecTrackAnalysisComponent.
Variable data : AliEMCalTriggerEventData.

Let names := GetMachingTriggerNames this (fTriggerMethod this).
Let weight := eventWeight this data.

(** Without the MC event that was asked for, the event ends at line 179:
    at most the debug line has been printed. *)
Lemma Process_skipped :
  fRequestMCtrue this && isNull (GetMCEvent data) = true ->
  fills (trace (Process this data)) = []
  /\ errors (trace (Process this data)) = []
  /\ (returned (Process this data) <->
      (fDebugLevel this < 1)%Z \/ GetMatchedTrackContainer data <> None).
Proof.
  intros Hskip. unfold Process, AliDebug, returned. rewrite Hskip.
  destruct (Z.leb_spec 1 (fDebugLevel this)).
  - destruct (GetMatchedTrackContainer data) as [c|]; cbn.
    + repeat split; try congruence. intros _. right. congruence.
    + repeat split; try congruence. intros [?|?]; [lia | congruence].
  - cbn. repeat split; try congruence. intros _. now left.
Qed.

(** Without the container of matched tracks nothing is filled. *)
Lemma Process_no_container :
  GetMatchedTrackContainer data = None ->
  Process this data
  = if (1 <=? fDebugLevel this)%Z then ([], None)
    else if fRequestMCtrue this && isNull (GetMCEvent data)
         then ([], Some tt)
         else ([Error "No container for matched tracks"], Some tt).
Proof.
  intros Hc. unfold Process, AliDebug, AliError. rewrite Hc.
  destruct (1 <=? fDebugLevel this)%Z; [reflexivity|].
  destruct (fRequestMCtrue this && isNull (GetMCEvent data)); reflexivity.
Qed.

(** With the container, and past line 179, the event is the track loop. *)
Lemma Process_loop container :
  GetMatchedTrackContainer data = Some container ->
  fRequestMCtrue this && isNull (GetMCEvent data) = false ->
  fills (trace (Process this data))
  = fills (trace (forEach (trackIter container)
                    (processTrack this data names weight)))
  /\ errors (trace (Process this data))
     = errors (trace (forEach (trackIter container)
                        (processTrack this data names weight)))
  /\ result (Process this data)
     = result (forEach (trackIter container)
                 (processTrack this data names weight)).
Proof.
  intros Hc Hskip. unfold Process, AliDebug. rewrite Hc, Hskip.
  fold names. fold weight.
  destruct (forEach (trackIter container) _) as [tr r].
  destruct (1 <=? fDebugLevel this)%Z; cbn; auto.
Qed.

(** Every fill of an event is a fill of one of its selected candidates. *)
Lemma Process_fills_in f :
  In f (fills (trace (Process this data))) ->
  exists container track,
    GetMatchedTrackContainer data = Some container
    /\ In track (trackIter container)
    /\ passesSelection this data track = true
    /\ In f (selectedFills this data names weight track).
Proof.
  destruct (fRequestMCtrue this && isNull (GetMCEvent data)) eqn:Hskip.
  { destruct (Process_skipped Hskip) as [-> _]. intros []. }
  destruct (GetMatchedTrackContainer data) as [container|] eqn:Hc.
  - destruct (Process_loop _ Hc Hskip) as [-> _]. intros H.
    apply forEach_fills_in in H as (track & Hin & Hf).
    apply processTrack_fills_in in Hf as [Hs Hf].
    exists container, track. auto.
  - rewrite (Process_no_container Hc), Hskip.
    destruct (1 <=? fDebugLevel this)%Z; intros [].
Qed.

(** When [Process] returns, every round of the track loop did. *)
Lemma Process_rounds_returned container track :
  GetMatchedTrackContainer data = Some container ->
  fRequestMCtrue this && isNull (GetMCEvent data) = false ->
  returned (Process this data) ->
  In track (trackIter container) ->
  returned (processTrack this data names weight track).
Proof.
  intros Hc Hskip Hret Hin.
  destruct (Process_loop _ Hc Hskip) as (_ & _ & Hr).
  unfold returned in Hret. rewrite Hr in Hret.
  apply forEach_returned in Hret.
  rewrite Forall_forall in Hret. auto.
Qed.

(** When line 179 ends the event, no candidate would have passed
    selection. *)
Lemma skipped_none_selected track :
  fRequestMCtrue this && isNull (GetMCEvent data) = true ->
  passesSelection this data track = false.
Proof.
  unfold passesSelection, assocMCof. intros H.
  apply andb_true_iff in H as [-> Hn].
  destruct (GetMCEvent data); [discriminate|].
  cbn. apply andb_false_r.
Qed.

(** When [Process] returns, the cluster lookup of every selected candidate
    was defined. *)
Lemma Process_returned_safe container track :
  GetMatchedTrackContainer data = Some container ->
  returned (Process this data) ->
  In track (trackIter container) ->
  passesSelection this data track = true ->
  clusterLookupFaults data track = false.
Proof.
  intros Hc Hret Hin Hs.
  destruct (fRequestMCtrue this && isNull (GetMCEvent data)) eqn:Hskip.
  - rewrite (skipped_none_selected track Hskip) in Hs. discriminate.
  - eapply processTrack_returned_safe; [exact Hs|].
    eapply Process_rounds_returned; eauto.
Qed.

(** The fills of a candidate that does not pass selection. *)
Lemma trackFills_rejected track :
  passesSelection this data track = false ->
  trackFills this data track = [].
Proof.
  intros Hs. unfold trackFills.
  destruct (passesCuts this track) eqn:Hcut.
  - now destruct (processTrack_unmatched this data names weight track Hcut Hs).
  - now destruct (processTrack_cut this data names weight track Hcut).
Qed.

(** The fills of a candidate that passes selection and whose cluster
    lookup is defined. *)
Lemma trackFills_selected track :
  passesSelection this data track = true ->
  clusterLookupFaults data track = false ->
  trackFills this data track = selectedFills this data names weight track.
Proof.
  intros Hs Hd. unfold trackFills.
  rewrite (processTrack_selected this data _ _ track Hs), Hd.
  apply fills_selectedTrace.
Qed.

(** When [Process] returns, the fills of the event are those of its
    candidates, in the order of the container. *)
Lemma Process_fills_returned container :
  GetMatchedTrackContainer data = Some container ->
  returned (Process this data) ->
  fills (trace (Process this data))
  = flat_map (trackFills this data) (trackIter container).
Proof.
  intros Hc Hret.
  destruct (fRequestMCtrue this && isNull (GetMCEvent data)) eqn:Hskip.
  - destruct (Process_skipped Hskip) as [-> _].
    induction (trackIter container) as [|t l IH]; [reflexivity|].
    cbn. rewrite (trackFills_rejected t (skipped_none_selected t Hskip)).
    exact IH.
  - destruct (Process_loop _ Hc Hskip) as (-> & _ & Hr).
    unfold returned in Hret. rewrite Hr in Hret.
    apply forEach_returned in Hret.
    rewrite (forEach_trace _ _ Hret).
    clear Hr Hret. induction (trackIter container) as [|t l IH];
      [reflexivity|].
    cbn. rewrite fills_app, IH. reflexivity.
Qed.

End ProcessLemmas.

(** ** Histogram names *)

(** A formatted name starts with its literal text. *)
Lemma prefix_Form (fmt s : string) : String.prefix fmt (Form fmt s) = true.
Proof.
  unfold Form. induction fmt as [|c fmt IH]; cbn.
  - destruct s; reflexivity.
  - destruct (Ascii.ascii_dec c c); [exact IH | congruence].
Qed.

(** Among the fills of a candidate, the raw ones are those named
    [hTrackHist<class>]. *)
Lemma isTrackHist_raw n d w :
  isTrackHist (mkFill (Form "hTrackHist" n) d w) = true.
Proof. apply prefix_Form. Qed.

Lemma filter_TrackHist_corr assocMC track :
  filter isTrackHist (corrFills assocMC track) = [].
Proof. destruct assocMC; reflexivity. Qed.

Lemma filter_TrackHist_trigger this data track assocMC hasCluster weight names :
  filter isTrackHist
    (flat_map (triggerFills this data track assocMC hasCluster weight) names)
  = map (fun n => mkFill (Form "hTrackHist" n)
                    (kineTuple this (GetRecEvent data) track) weight) names.
Proof.
  induction names as [|n names IH]; [reflexivity|].
  cbn [flat_map map]. rewrite filter_app, IH.
  unfold triggerFills. cbn [filter]. rewrite isTrackHist_raw.
  destruct assocMC, hasCluster; reflexivity.
Qed.

(** Two names built from different literal texts differ. *)
Ltac name_clash :=
  match goal with
  | H : _ = _ :> string |- _ =>
      solve [unfold Form in H; cbn in H; discriminate H]
  end.

(** What a fill of a selected candidate can be. *)
Lemma selectedFills_in this data names weight track f :
  In f (selectedFills this data names weight track) ->
  let recev := GetRecEvent data in
  (exists mc, assocMCof this data track = Some mc
     /\ f = mkFill "hTrackPtCorrelation" (corrTuple mc track)
              FillCorrelation_default_weight)
  \/ exists n, In n names /\
     (f = mkFill (Form "hTrackHist" n) (kineTuple this recev track) weight
      \/ (hasClusterOf data track = true
          /\ f = mkFill (Form "hTrackInAcceptanceHist" n)
                   (kineTuple this recev track) weight)
      \/ exists mc, assocMCof this data track = Some mc /\
         (f = mkFill (Form "hMCTrackHist" n) (kineTuple this recev mc) weight
          \/ (hasClusterOf data track = true
              /\ f = mkFill (Form "hMCTrackInAcceptanceHist" n)
                       (kineTuple this recev mc) weight))).
Proof.
  intros H recev. unfold selectedFills in H. apply in_app_or in H as [H|H].
  - left. destruct (assocMCof this data track) as [mc|]; [|destruct H].
    destruct H as [<-|[]]. now exists mc.
  - right. apply in_flat_map in H as (n & Hn & H). exists n. split; [exact Hn|].
    unfold triggerFills in H. fold recev in H.
    destruct H as [<-|H]; [now left|].
    apply in_app_or in H as [H|H].
    + destruct (hasClusterOf data track); [|destruct H].
      destruct H as [<-|[]]. right; left; auto.
    + destruct (assocMCof this data track) as [mc|]; [|destruct H].
      right; right. exists mc. split; [reflexivity|].
      destruct H as [<-|H]; [now left|].
      destruct (hasClusterOf data track); [|destruct H].
      destruct H as [<-|[]]. right; auto.
Qed.

(** The fills a selected candidate does get, class by class. *)
Lemma selectedFills_has this data names weight track n :
  In n names ->
  let recev := GetRecEvent data in
  let fs := selectedFills this data names weight track in
  In (mkFill (Form "hTrackHist" n) (kineTuple this recev track) weight) fs
  /\ (hasClusterOf data track = true ->
      In (mkFill (Form "hTrackInAcceptanceHist" n)
            (kineTuple this recev track) weight) fs)
  /\ forall mc, assocMCof this data track = Some mc ->
       In (mkFill (Form "hMCTrackHist" n) (kineTuple this recev mc) weight) fs
       /\ (hasClusterOf data track = true ->
           In (mkFill (Form "hMCTrackInAcceptanceHist" n)
                 (kineTuple this recev mc) weight) fs).
Proof.
  intros Hn recev fs. subst fs. unfold selectedFills.
  repeat split; intros; apply in_or_app; right; apply in_flat_map;
    exists n; (split; [exact Hn|]); unfold triggerFills; fold recev.
  - now left.
  - right. apply in_or_app. left. rewrite H. now left.
  - right. apply in_or_app. right. rewrite H. now left.
  - right. apply in_or_app. right. rewrite H, H0. right. now left.
Qed.

(** [IsMCTrueTrack] finds a particle iff one sits at [TMath::Abs] of the
    label and its physical-primary flag is set. *)
Lemma IsMCTrueTrack_spec trk evnt mcpart :
  IsMCTrueTrack trk evnt = Some mcpart <->
  GetTrack evnt (TMath.AbsInt (GetLabel trk)) = Some mcpart
  /\ physicalPrimaryFlag evnt (TMath.AbsInt (GetLabel trk)) mcpart = true.
Proof.
  unfold IsMCTrueTrack, physicalPrimaryFlag.
  destruct (GetTrack evnt (TMath.AbsInt (GetLabel trk))) as [p|].
  - destruct (aodPrimary p) as [[|]|] eqn:Ha; cbn.
    + split; [intros [= <-]; rewrite Ha; auto | intros [[= <-] _]; auto].
    + split; [discriminate | intros [[= <-] H]; rewrite Ha in H; discriminate].
    + destruct (IsPhysicalPrimary evnt (TMath.AbsInt (GetLabel trk))); cbn.
      * split; [intros [= <-]; rewrite Ha; auto | intros [[= <-] _]; auto].
      * split; [discriminate
               | intros [[= <-] H]; rewrite Ha in H; discriminate].
  - split; [discriminate | intros [H _]; discriminate].
Qed.

(** [Process] returns when the container of matched tracks is there and
    every cluster lookup is defined. *)
Lemma Process_returns this data container :
  GetMatchedTrackContainer data = Some container ->
  clusterLookupsDefined this data container ->
  returned (Process this data).
Proof.
  intros Hc Hsafe.
  destruct (fRequestMCtrue this && isNull (GetMCEvent data)) eqn:Hskip.
  { apply (Process_skipped this data Hskip). right. congruence. }
  destruct (Process_loop this data _ Hc Hskip) as (_ & _ & Hr).
  unfold returned. rewrite Hr. apply forEach_returned, Forall_forall.
  intros track Hin.
  destruct (passesSelection this data track) eqn:Hs.
  - rewrite (processTrack_selected this data _ _ track Hs),
      (Hsafe track Hin Hs). unfold returned. cbn. congruence.
  - destruct (passesCuts this track) eqn:Hcut.
    + apply (processTrack_unmatched this data _ _ track Hcut Hs).
      unfold passesSelection in Hs. rewrite Hcut in Hs.
      destruct (fRequestMCtrue this); [|discriminate].
      destruct (GetMCEvent data); [congruence | discriminate].
    + apply (processTrack_cut this data _ _ track Hcut).
Qed.

(** With the container of matched tracks at hand, [Process] returns iff
    every cluster lookup is defined. *)
Lemma Process_returned_iff this data container :
  GetMatchedTrackContainer data = Some container ->
  returned (Process this data) <-> clusterLookupsDefined this data container.
Proof.
  intros Hc. split.
  - intros Hret track Hin Hs.
    exact (Process_returned_safe this data container track Hc Hret Hin Hs).
  - apply Process_returns, Hc.
Qed.

(** The weight of an event is the handler's answer for the generated event
    when both are there, and 1 otherwise. *)
Lemma eventWeight_spec this data :
  (forall handler mc,
     fWeightHandler this = Some handler -> GetMCEvent data = Some mc ->
     eventWeight this data = GetEventWeight handler mc)
  /\ (fWeightHandler this = None \/ GetMCEvent data = None ->
      eventWeight this data = 1).
Proof.
  unfold eventWeight. split.
  - intros handler mc -> ->. reflexivity.
  - intros [-> | ->]; [reflexivity|]. now destruct (fWeightHandler this).
Qed.

(** Per-trigger fills carry the weight of the event; the correlation fill
    carries the default of [FillCorrelation], whatever the event weight. *)
Lemma fill_weights this data f :
  In f (fills (trace (Process this data))) ->
  (isCorrelation f = true
   /\ fillWeight f = FillCorrelation_default_weight)
  \/ (isCorrelation f = false /\ fillWeight f = eventWeight this data).
Proof.
  intros Hin.
  apply Process_fills_in in Hin as (container & track & _ & _ & _ & Hf).
  apply selectedFills_in in Hf
    as [(mc & _ & ->) | (n & _ & [-> | [[_ ->] | (mc & _ & [-> | [_ ->]])]])];
    [left | right ..]; split; reflexivity.
Qed.

(** For a selected candidate of an event whose cluster lookups are defined,
    and a trigger class the event satisfies, the in-acceptance aggregate of
    the class is filled iff the cluster index is not negative and resolves
    to a cluster of the cluster container. *)
Lemma inAcceptance_fill_iff this data container track name :
  GetMatchedTrackContainer data = Some container ->
  clusterLookupsDefined this data container ->
  In track (trackIter container) ->
  passesSelection this data track = true ->
  In name (GetMachingTriggerNames this (fTriggerMethod this)) ->
  (exists f, In f (trackFills this data track)
             /\ fillName f = Form "hTrackInAcceptanceHist" name)
  <-> exists t,
        testtrackOf track = Some t
        /\ (0 <= GetEMCALcluster t)%Z
        /\ exists clust, resolvedCluster data track = Some clust.
Proof.
  intros Hc Hsafe Hin Hs Hname. rewrite <- hasClusterOf_spec.
  rewrite (trackFills_selected this data track Hs (Hsafe track Hin Hs)).
  split.
  - intros (f & Hf & Hn). apply selectedFills_in in Hf
      as [(mc & _ & ->) | (n & _ & [-> | [[Hh ->] | (mc & _ & [-> | [_ ->]])]])];
      cbn [fillName] in Hn; try name_clash. exact Hh.
  - intros Hh.
    destruct (selectedFills_has this data _ (eventWeight this data)
                track name Hname) as (_ & H & _).
    eexists. split; [exact (H Hh) | reflexivity].
Qed.

(** Without a cluster container no cluster is matched; the event is worked
    through iff every selected candidate has the track whose cluster index
    is used, and that index is negative. *)
Lemma no_cluster_container this data container :
  GetMatchedTrackContainer data = Some container ->
  GetClusterContainer data = None ->
  (forall track, hasClusterOf data track = false)
  /\ (returned (Process this data) <->
      forall track,
        In track (trackIter container) ->
        passesSelection this data track = true ->
        exists t,
          testtrackOf track = Some t /\ (GetEMCALcluster t < 0)%Z).
Proof.
  intros Hc Hcl. split.
  - intros track. unfold hasClusterOf, resolvedCluster. rewrite Hcl.
    destruct (testtrackOf track); [apply andb_false_r | reflexivity].
  - rewrite (Process_returned_iff this data container Hc).
    unfold clusterLookupsDefined, clusterLookupFaults. rewrite Hcl.
    split; intros H track Hin Hs; specialize (H track Hin Hs).
    + destruct (testtrackOf track) as [t|]; [|discriminate].
      exists t. rewrite andb_true_r in H. split; [reflexivity|].
      now apply Z.leb_gt.
    + destruct H as (t & -> & H). rewrite andb_true_r. now apply Z.leb_gt.
Qed.


(** The condition for MC-truth fills holds iff the track loop finds an
    associated particle, for a label whose absolute value is an [Int_t]. *)
Lemma mcTruthResolved_iff this data track :
  (- 2 ^ 31 < GetLabel track < 2 ^ 31)%Z ->
  mcTruthResolved this data track
  <-> exists mc, assocMCof this data track = Some mc.
Proof.
  intros Hlabel. unfold mcTruthResolved, assocMCof.
  rewrite <- (TMath_AbsInt_Zabs _ Hlabel). split.
  - intros (-> & evnt & mc & -> & Hget & Hflag). exists mc.
    apply IsMCTrueTrack_spec. auto.
  - intros [mc H]. destruct (fRequestMCtrue this); [|discriminate].
    destruct (GetMCEvent data) as [evnt|]; [|discriminate].
    apply IsMCTrueTrack_spec in H as [H1 H2].
    split; [reflexivity|]. exists evnt, mc. auto.
Qed.

(** ** The end-to-end scenarios *)

(** One candidate without cluster in a minimum bias event: one fill of the
    raw aggregate of "MinBias", with weight 1. *)
Example scenario_unmatched :
  Process Scenario.plain Scenario.unmatched
  = ([Fill "hTrackHistMinBias" [5; 3 # 10; 1; 2; 1] 1], Some tt).
Proof. reflexivity. Qed.

(** The same with the cluster index 3 resolving to a cluster: the
    in-acceptance aggregate gets the same tuple. *)
Example scenario_matched :
  Process Scenario.plain Scenario.matched
  = ([ Fill "hTrackHistMinBias" [5; 3 # 10; 1; 2; 1] 1;
       Fill "hTrackInAcceptanceHistMinBias" [5; 3 # 10; 1; 2; 1] 1 ],
     Some tt).
Proof. reflexivity. Qed.

(** With MC truth requested and the label resolving to a primary particle
    of pt 4.8: the correlation fill and the MC aggregate with the
    kinematics of the particle. *)
Example scenario_mc_truth :
  Process Scenario.mcTruth Scenario.simulated
  = ([ Fill "hTrackPtCorrelation" [48 # 10; 5; 3 # 10; 1] 1;
       Fill "hTrackHistMinBias" [5; 3 # 10; 1; 2; 1] 1;
       Fill "hMCTrackHistMinBias" [48 # 10; 3 # 10; 1; 2; 1] 1 ],
     Some tt).
Proof. reflexivity. Qed.

(** With debugging at level 1 the number of matched tracks is printed
    first; without the container the line cannot be built. *)
Example scenario_debug :
  Process (Scenario.component false None 1) Scenario.unmatched
  = ([ Debug 1 "Number of matched tracks: 1";
       Fill "hTrackHistMinBias" [5; 3 # 10; 1; 2; 1] 1 ],
     Some tt)
  /\ Process (Scenario.component false None 1) Scenario.noContainers
     = ([], None).
Proof. split; reflexivity. Qed.

(** * The claims *)

(** ** C1: event without the container of matched tracks *)

(** C1, as the code has it.  For an event without the container of matched
    tracks, [Process] fills no histogram.  When the debug line of line 178
    is not printed (debug level below 1), [Process] returns, so the next
    event is processed, and it logs "No container for matched tracks" at
    error severity, except when MC truth is requested and the event has no
    MC event: then line 179 has already ended the event, without a log
    line. *)
Theorem C1_missing_track_container
    (this : AliEMCalTriggerRecTrackAnalysisComponent)
    (data : AliEMCalTriggerEventData) :
  GetMatchedTrackContainer data = None ->
  fills (trace (Process this data)) = []
  /\ ((fDebugLevel this < 1)%Z ->
      returned (Process this data)
      /\ errors (trace (Process this data))
         = if fRequestMCtrue this && isNull (GetMCEvent data) then []
           else ["No container for matched tracks"]).
Proof.
  intros Hc. rewrite (Process_no_container this data Hc). split.
  - destruct (1 <=? fDebugLevel this)%Z; [reflexivity|].
    destruct (fRequestMCtrue this && isNull (GetMCEvent data)); reflexivity.
  - intros Hd. apply Z.leb_gt in Hd. rewrite Hd. unfold returned.
    destruct (fRequestMCtrue this && isNull (GetMCEvent data)); cbn;
      split; congruence.
Qed.

(** The error line is there when MC truth is not requested. *)
Lemma C1_missing_track_container_witness :
  fills (trace (Process Scenario.plain Scenario.noContainers)) = []
  /\ returned (Process Scenario.plain Scenario.noContainers)
  /\ errors (trace (Process Scenario.plain Scenario.noContainers))
     = ["No container for matched tracks"].
Proof.
  destruct (C1_missing_track_container Scenario.plain Scenario.noContainers
              eq_refl) as [Hf Hrest].
  destruct (Hrest eq_refl) as [Hr He].
  exact (conj Hf (conj Hr He)).
Defined.

(** C1 as the specification words it fails: with MC truth requested and no
    MC event, an event without the container of matched tracks is dropped
    at line 179, before the check of the container, and nothing is logged
    at error severity. *)
Lemma C1_no_error_logged_counterexample :
  GetMatchedTrackContainer Scenario.noContainers = None
  /\ Process Scenario.mcTruth Scenario.noContainers = ([], Some tt)
  /\ errors (trace (Process Scenario.mcTruth Scenario.noContainers)) = [].
Proof. repeat split. Qed.

(** ** C2: the weight of the fills *)

(** C2 at a concrete event: the handler gives the event the weight 2, the
    candidate is matched to a primary particle, and the per-trigger fills
    carry the weight 2 while the correlation fill carries 1. *)
Theorem C2_correlation_fill_lacks_event_weight :
  eventWeight Scenario.mcTruthWeighted Scenario.simulated = 2
  /\ fills (trace (Process Scenario.mcTruthWeighted Scenario.simulated))
     = [ mkFill "hTrackPtCorrelation" [48 # 10; 5; 3 # 10; 1] 1;
         mkFill "hTrackHistMinBias" [5; 3 # 10; 1; 2; 1] 2;
         mkFill "hMCTrackHistMinBias" [48 # 10; 3 # 10; 1; 2; 1] 2 ].
Proof. split; reflexivity. Qed.

(** ** C3: cluster matching *)

(** C3 at a concrete event: the event has no cluster container and its
    selected candidate carries the cluster index 3; [Process] dereferences
    the missing container at line 215 and does not complete. *)
Theorem C3_missing_cluster_container_dereferenced :
  GetClusterContainer Scenario.indexWithoutClusters = None
  /\ trackIter [Some (TrackObject (Scenario.track 3))] = [Scenario.track 3]
  /\ passesSelection Scenario.plain Scenario.indexWithoutClusters
       (Scenario.track 3) = true
  /\ GetEMCALcluster (Scenario.track 3) = 3%Z
  /\ Process Scenario.plain Scenario.indexWithoutClusters = ([], None).
Proof. repeat split. Qed.

(** ** C4: MC-truth fills *)

(** Where the cluster lookups are defined.  For a candidate of such an
    event, with a label whose absolute value is an [Int_t], and for a
    trigger class the event satisfies: when the candidate passes the cuts,
    the MC aggregate [hMCTrackHist<class>] is filled for it iff MC truth is
    requested, a particle exists in the MC event at the absolute value of
    the candidate's label, and the physical-primary flag of that particle
    (its own when it is an AOD particle, the MC event's answer for the label
    otherwise) is set; the aggregate [hMCTrackInAcceptanceHist<class>] is
    filled iff, in addition, a cluster is matched.  When MC truth is
    requested and the condition fails, the candidate gets no fill at all;
    nor does a candidate that fails a cut. *)
Lemma mc_truth_fills_where_lookups_defined
    (this : AliEMCalTriggerRecTrackAnalysisComponent)
    (data : AliEMCalTriggerEventData) (container : TClonesArray)
    (track : AliVTrack) (name : string) :
  GetMatchedTrackContainer data = Some container ->
  clusterLookupsDefined this data container ->
  In track (trackIter container) ->
  (- 2 ^ 31 < GetLabel track < 2 ^ 31)%Z ->
  In name (GetMachingTriggerNames this (fTriggerMethod this)) ->
  (passesCuts this track = true ->
   ((exists f, In f (trackFills this data track)
               /\ fillName f = Form "hMCTrackHist" name)
    <-> mcTruthResolved this data track)
   /\ ((exists f, In f (trackFills this data track)
                  /\ fillName f = Form "hMCTrackInAcceptanceHist" name)
       <-> mcTruthResolved this data track
           /\ hasClusterOf data track = true))
  /\ (fRequestMCtrue this = true -> ~ mcTruthResolved this data track ->
      trackFills this data track = [])
  /\ (passesCuts this track = false -> trackFills this data track = []).
Proof.
  intros Hc Hsafe Hin Hlabel Hname.
  set (names := GetMachingTriggerNames this (fTriggerMethod this)) in *.
  set (weight := eventWeight this data).
  assert (Hfrom : forall f, In f (trackFills this data track) ->
            In f (selectedFills this data names weight track)).
  { intros f Hf. now apply processTrack_fills_in in Hf. }
  rewrite (mcTruthResolved_iff this data track Hlabel). split; [|split].
  - intros Hcut.
    assert (Hto : forall mc, assocMCof this data track = Some mc ->
              trackFills this data track
              = selectedFills this data names weight track).
    { intros mc Hmc.
      assert (Hs : passesSelection this data track = true).
      { unfold passesSelection. rewrite Hcut, Hmc. apply orb_true_r. }
      apply trackFills_selected; [exact Hs | exact (Hsafe track Hin Hs)]. }
    split; split.
    + intros (f & Hf & Hn). apply Hfrom, selectedFills_in in Hf
        as [(mc & Hmc & ->) | (n & _ & [-> | [[_ ->] | (mc & Hmc & _)]])];
        cbn [fillName] in Hn; try name_clash.
      eauto.
    + intros [mc Hmc]. rewrite (Hto mc Hmc).
      destruct (selectedFills_has this data names weight track name Hname)
        as (_ & _ & H).
      destruct (H mc Hmc) as [H1 _]. eexists. split; [exact H1 | reflexivity].
    + intros (f & Hf & Hn). apply Hfrom, selectedFills_in in Hf
        as [(mc & Hmc & ->)
           | (n & _ & [-> | [[_ ->] | (mc & Hmc & [-> | [Hh ->]])]])];
        cbn [fillName] in Hn; try name_clash.
      split; [eauto | exact Hh].
    + intros [[mc Hmc] Hh]. rewrite (Hto mc Hmc).
      destruct (selectedFills_has this data names weight track name Hname)
        as (_ & _ & H).
      destruct (H mc Hmc) as [_ H2].
      eexists. split; [exact (H2 Hh) | reflexivity].
  - intros Hreq Hno. apply trackFills_rejected.
    unfold passesSelection. rewrite Hreq. cbn.
    destruct (assocMCof this data track) as [mc|] eqn:Hmc.
    + destruct Hno. eauto.
    + apply andb_false_r.
  - intros Hcut. apply trackFills_rejected.
    unfold passesSelection. now rewrite Hcut.
Qed.

(** The candidate of the simulated event matched to particle 7, a physical
    primary, and to the cluster in slot 3: the correlation fill and the four
    aggregates of "MinBias". *)
Example scenario_mc_truth_matched :
  Process Scenario.mcTruth Scenario.simulatedMatched
  = ([ Fill "hTrackPtCorrelation" [48 # 10; 5; 3 # 10; 1] 1;
       Fill "hTrackHistMinBias" [5; 3 # 10; 1; 2; 1] 1;
       Fill "hTrackInAcceptanceHistMinBias" [5; 3 # 10; 1; 2; 1] 1;
       Fill "hMCTrackHistMinBias" [48 # 10; 3 # 10; 1; 2; 1] 1;
       Fill "hMCTrackInAcceptanceHistMinBias" [48 # 10; 3 # 10; 1; 2; 1] 1 ],
     Some tt).
Proof. reflexivity. Qed.

(** C4 at a concrete event.  MC truth is requested; the one candidate has
    the label 7, at whose absolute value the MC event holds a particle that
    is a physical primary, and it passes the cuts; the event satisfies the
    trigger class "MinBias".  The candidate carries the cluster index 3 and
    the event has no cluster container: [Process] makes the correlation
    fill, dereferences the missing container at line 215 and does not
    complete, so that neither MC aggregate of "MinBias" is filled for the
    candidate. *)
Theorem C4_mc_aggregates_lost_at_cluster_lookup :
  mcTruthResolved Scenario.mcTruth Scenario.simulatedWithoutClusters
    (Scenario.track 3)
  /\ passesCuts Scenario.mcTruth (Scenario.track 3) = true
  /\ GetMachingTriggerNames Scenario.mcTruth (fTriggerMethod Scenario.mcTruth)
     = ["MinBias"]
  /\ trackIter [Some (TrackObject (Scenario.track 3))] = [Scenario.track 3]
  /\ Process Scenario.mcTruth Scenario.simulatedWithoutClusters
     = ([Fill "hTrackPtCorrelation" [48 # 10; 5; 3 # 10; 1] 1], None)
  /\ filter (fun f => isMCTrackHist f || isMCTrackInAcceptanceHist f)
       (fills (trace (Process Scenario.mcTruth
                        Scenario.simulatedWithoutClusters)))
     = [].
Proof.
  split.
  - split; [reflexivity|].
    exists Scenario.generated, (mkMCParticle (48 # 10) (3 # 10) 1 None).
    repeat split.
  - repeat split.
Qed.

(** ** C5: one raw fill per trigger class *)

(** Where the cluster lookups are defined.  For an event with its
    container of matched tracks and with every cluster lookup defined,
    [Process] returns, its fills are the fills of its candidates in turn,
    and every candidate that passes selection gets exactly one fill into a
    raw aggregate per satisfied trigger class, into the aggregate
    [hTrackHist<class>] named for it (so none when no class is
    satisfied). *)
Lemma raw_fills_where_lookups_defined
    (this : AliEMCalTriggerRecTrackAnalysisComponent)
    (data : AliEMCalTriggerEventData) (container : TClonesArray) :
  GetMatchedTrackContainer data = Some container ->
  clusterLookupsDefined this data container ->
  returned (Process this data)
  /\ fills (trace (Process this data))
     = flat_map (trackFills this data) (trackIter container)
  /\ forall track,
       In track (trackIter container) ->
       passesSelection this data track = true ->
       filter isTrackHist (trackFills this data track)
       = map (fun n => mkFill (Form "hTrackHist" n)
                         (kineTuple this (GetRecEvent data) track)
                         (eventWeight this data))
           (GetMachingTriggerNames this (fTriggerMethod this))
       /\ List.length (filter isTrackHist (trackFills this data track))
          = List.length (GetMachingTriggerNames this (fTriggerMethod this)).
Proof.
  intros Hc Hsafe.
  assert (Hret := Process_returns this data container Hc Hsafe).
  split; [exact Hret|]. split.
  - apply Process_fills_returned; assumption.
  - intros track Hin Hs.
    rewrite (trackFills_selected this data track Hs (Hsafe track Hin Hs)).
    unfold selectedFills. rewrite filter_app, filter_TrackHist_corr.
    cbn [app]. rewrite filter_TrackHist_trigger.
    split; [reflexivity | apply length_map].
Qed.

(** C5 at a concrete event.  The event satisfies one trigger class,
    "MinBias", and its one candidate passes selection; the candidate carries
    the cluster index 3 and the event has no cluster container.  [Process]
    dereferences the missing container at line 215, before the loop over the
    trigger classes, and does not complete: the candidate gets no fill into
    a raw aggregate, where one is due. *)
Theorem C5_raw_fill_lost_at_cluster_lookup :
  List.length
    (GetMachingTriggerNames Scenario.plain (fTriggerMethod Scenario.plain))
  = 1%nat
  /\ trackIter [Some (TrackObject (Scenario.track 3))] = [Scenario.track 3]
  /\ passesSelection Scenario.plain Scenario.indexWithoutClusters
       (Scenario.track 3) = true
  /\ Process Scenario.plain Scenario.indexWithoutClusters = ([], None)
  /\ List.length
       (filter isTrackHist
          (fills (trace (Process Scenario.plain
                           Scenario.indexWithoutClusters))))
     = 0%nat.
Proof. repeat split. Qed.

(** ** C6: the tuple of a raw fill *)

(** C6. Every fill of a raw aggregate [hTrackHist<class>] made during an
    event records, for one of the event's candidate tracks, the five numbers
    (pt, eta, phi, vertex z, min. bias flag) in this order: pt is the
    magnitude of the track's transverse momentum, eta is [- eta] of the
    track when [fSwapEta] is set and [eta] itself otherwise, phi is the
    track's, the vertex z is that of the reconstructed event's primary
    vertex, and the flag is 1 or 0 as the trigger decision says the event is
    minimum bias or not. *)
Theorem C6_raw_fill_records_track_tuple
    (this : AliEMCalTriggerRecTrackAnalysisComponent)
    (data : AliEMCalTriggerEventData) (f : FillRecord) :
  In f (fills (trace (Process this data))) ->
  isTrackHist f = true ->
  exists container track,
    GetMatchedTrackContainer data = Some container
    /\ In track (trackIter container)
    /\ fillData f
       = [ Qabs (Pt track);
           if fSwapEta this then - Eta track else Eta track;
           Phi track;
           GetPrimaryVertexZ (GetRecEvent data);
           if IsMinBias (fTriggerDecision this) then 1 else 0 ].
Proof.
  intros Hin Hraw.
  apply Process_fills_in in Hin as (container & track & Hc & Ht & _ & Hf).
  exists container, track. repeat split; [assumption..|].
  apply selectedFills_in in Hf
    as [(mc & _ & ->) | (n & _ & [-> | [[_ ->] | (mc & _ & [-> | [_ ->]])]])];
    try reflexivity; discriminate Hraw.
Qed.

(** The first end-to-end scenario: (5.0, 0.3, 1.0, 2.0, 1). *)
Lemma C6_raw_fill_records_track_tuple_witness :
  exists container track,
    GetMatchedTrackContainer Scenario.unmatched = Some container
    /\ In track (trackIter container)
    /\ [5; 3 # 10; 1; 2; 1]
       = [ Qabs (Pt track);
           if fSwapEta Scenario.plain then - Eta track else Eta track;
           Phi track;
           GetPrimaryVertexZ (GetRecEvent Scenario.unmatched);
           if IsMinBias (fTriggerDecision Scenario.plain) then 1 else 0 ].
Proof.
  apply (C6_raw_fill_records_track_tuple Scenario.plain Scenario.unmatched
           (mkFill "hTrackHistMinBias" [5; 3 # 10; 1; 2; 1] 1)).
  - vm_compute. left. reflexivity.
  - reflexivity.
Defined.

(** ** C7: range cuts *)

(** C7. A value passes a range cut with limits [lo] and [hi] iff
    [lo <= v <= hi], both ends included: for the range itself, for the
    energy range of the cluster component once [SetEnergyRange] has set it,
    and for the kinematic cut of the track loop, which a candidate passes
    iff no cut object is configured or its transverse momentum lies in the
    configured range. *)
Theorem C7_range_cut_inclusive :
  (forall r lo hi v,
     IsInRange (SetLimits r lo hi) v = true <-> lo <= v /\ v <= hi)
  /\ (forall c lo hi v,
        IsInRange (fEnergyRange (SetEnergyRange c lo hi)) v = true
        <-> lo <= v /\ v <= hi)
  /\ (forall this track,
        failsKineCuts this track = false
        <-> fKineCuts this = None
            \/ exists cuts,
                 fKineCuts this = Some cuts
                 /\ fLower (fPtCut cuts) <= Pt track
                 /\ Pt track <= fUpper (fPtCut cuts)).
Proof.
  assert (Hrange : forall r v,
            IsInRange r v = true <-> fLower r <= v /\ v <= fUpper r).
  { intros r v. unfold IsInRange.
    rewrite andb_true_iff, !Qle_bool_iff. reflexivity. }
  split; [|split].
  - intros r lo hi v. apply Hrange.
  - intros c lo hi v. apply Hrange.
  - intros this track. unfold failsKineCuts, IsSelected.
    destruct (fKineCuts this) as [cuts|].
    + rewrite negb_false_iff, Hrange. split.
      * intros H. right. exists cuts. tauto.
      * intros [H | (c & [= <-] & H)]; [discriminate | exact H].
    + split; auto.
Qed.

(** Both ends of a range are in, what lies beyond is out. *)
Example range_boundaries :
  IsInRange (mkRange 1 5) 1 = true
  /\ IsInRange (mkRange 1 5) 5 = true
  /\ IsInRange (mkRange 1 5) (51 # 10) = false
  /\ IsInRange (mkRange 1 5) (9 # 10) = false.
Proof. repeat split. Qed.

(** ** C8: event without MC event *)

(** Where the cluster lookups are defined.  For an event without MC event:
    when MC truth is requested, line 179 ends the event, without fill or
    error line, and [Process] returns (the debug line of line 178 apart,
    which needs the container of matched tracks); when it is not requested,
    no fill that needs the MC event is made (no MC aggregate, no
    correlation), and, the cluster lookups being defined, [Process] returns
    and every candidate that passes the cuts gets its track-level fills, for
    every satisfied trigger class, with weight 1. *)
Lemma missing_mc_event_where_lookups_defined
    (this : AliEMCalTriggerRecTrackAnalysisComponent)
    (data : AliEMCalTriggerEventData) :
  GetMCEvent data = None ->
  (fRequestMCtrue this = true ->
   fills (trace (Process this data)) = []
   /\ errors (trace (Process this data)) = []
   /\ (returned (Process this data) <->
       (fDebugLevel this < 1)%Z \/ GetMatchedTrackContainer data <> None))
  /\ (fRequestMCtrue this = false ->
      (forall f, In f (fills (trace (Process this data))) ->
                 isMCFill f = false)
      /\ forall container,
           GetMatchedTrackContainer data = Some container ->
           clusterLookupsDefined this data container ->
           returned (Process this data)
           /\ fills (trace (Process this data))
              = flat_map
                  (fun track =>
                     if passesCuts this track
                     then flat_map
                            (triggerFills this data track None
                               (hasClusterOf data track) 1)
                            (GetMachingTriggerNames this (fTriggerMethod this))
                     else [])
                  (trackIter container)).
Proof.
  intros Hmc. split.
  - intros Hreq. apply (Process_skipped this data).
    rewrite Hreq, Hmc. reflexivity.
  - intros Hreq.
    assert (Hassoc : forall track, assocMCof this data track = None).
    { intros track. unfold assocMCof. now rewrite Hreq. }
    split.
    + intros f Hin.
      apply Process_fills_in in Hin as (container & track & _ & _ & _ & Hf).
      apply selectedFills_in in Hf
        as [(mc & Hm & _) | (n & _ & [-> | [[_ ->] | (mc & Hm & _)]])];
        try reflexivity; rewrite Hassoc in Hm; discriminate.
    + intros container Hc Hsafe.
      assert (Hret := Process_returns this data container Hc Hsafe).
      split; [exact Hret|].
      rewrite (Process_fills_returned this data container Hc Hret).
      rewrite !flat_map_concat_map. f_equal. apply map_ext_in.
      intros track Hin.
      assert (Hsel : passesSelection this data track = passesCuts this track).
      { unfold passesSelection. rewrite Hreq. cbn. apply andb_true_r. }
      destruct (passesCuts this track) eqn:Hcut.
      * rewrite (trackFills_selected this data track Hsel
                   (Hsafe track Hin Hsel)).
        unfold selectedFills, eventWeight.
        rewrite Hassoc, Hmc. cbn [corrFills app].
        now destruct (fWeightHandler this).
      * apply trackFills_rejected. exact Hsel.
Qed.

(** C8 at a concrete event without MC event, whose one candidate passes
    the cuts and carries the cluster index 3, and which has no cluster
    container.  With MC truth requested, line 179 ends the event: [Process]
    returns without any fill.  With MC truth not requested, [Process]
    dereferences the missing container at line 215 and does not complete:
    the fill of the raw aggregate of "MinBias", which needs nothing of the
    MC event, is lost with the others.  The same candidate without cluster
    index gets that fill. *)
Theorem C8_track_level_fill_lost_without_mc_event :
  GetMCEvent Scenario.indexWithoutClusters = None
  /\ passesCuts Scenario.plain (Scenario.track 3) = true
  /\ Process Scenario.mcTruth Scenario.indexWithoutClusters = ([], Some tt)
  /\ Process Scenario.plain Scenario.indexWithoutClusters = ([], None)
  /\ Process Scenario.plain Scenario.unmatched
     = ([Fill "hTrackHistMinBias" [5; 3 # 10; 1; 2; 1] 1], Some tt).
Proof. repeat split. Qed.

(** ** C9: the local [isMC] of the macro *)

(** C9. For an analysis manager with an input event handler and no
    MC-truth event handler, the macro creates the task and hands [SetIsMC]
    the local [isMC] while it has not been assigned: the task is configured
    from an uninitialised read. *)
Theorem C9_isMC_read_before_assignment
    (mgr : AliAnalysisManager) (handler : AliVEventHandler)
    (cutEta : Bool_t) :
  GetInputEventHandler mgr = Some handler ->
  GetMCtruthEventHandler mgr = None ->
  exists task,
    returnedTask (AddTaskUpcNano_MB (Some mgr) cutEta) = Some task
    /\ fIsMC task = Indeterminate
    /\ fCutEta task = cutEta.
Proof.
  intros Hin Hmc. unfold AddTaskUpcNano_MB. rewrite Hin, Hmc.
  eexists. cbn. repeat split.
Qed.

Lemma C9_isMC_read_before_assignment_witness :
  exists task,
    returnedTask (AddTaskUpcNano_MB (Some Scenario.dataManager) false)
    = Some task
    /\ fIsMC task = Indeterminate
    /\ fCutEta task = false.
Proof.
  exact (C9_isMC_read_before_assignment Scenario.dataManager
           (mkInputHandler "ESD") false eq_refl eq_refl).
Defined.

(** With an MC-truth handler the local is assigned before it is read. *)
Lemma isMC_assigned_with_mc_handler mgr handler mcHandler cutEta :
  GetInputEventHandler mgr = Some handler ->
  GetMCtruthEventHandler mgr = Some mcHandler ->
  exists task,
    returnedTask (AddTaskUpcNano_MB (Some mgr) cutEta) = Some task
    /\ fIsMC task = Assigned true.
Proof.
  intros Hin Hmc. unfold AddTaskUpcNano_MB. rewrite Hin, Hmc.
  eexists. cbn. split; reflexivity.
Qed.

(** ** C10: recorded transverse momenta *)

(** C10. Every fill made during an event records magnitudes of transverse
    momenta: a correlation fill records (|pt| of the generated particle,
    |pt| of the track, eta and phi of the track as they are); a fill of a
    track aggregate records |pt| of the track, and a fill of an MC aggregate
    |pt| of the associated generated particle, each followed by eta (with
    the sign [fSwapEta] asks for) and phi of the same object as they are. *)
Theorem C10_recorded_pt_is_magnitude
    (this : AliEMCalTriggerRecTrackAnalysisComponent)
    (data : AliEMCalTriggerEventData) (f : FillRecord) :
  In f (fills (trace (Process this data))) ->
  exists container track,
    GetMatchedTrackContainer data = Some container
    /\ In track (trackIter container)
    /\ ((fillName f = "hTrackPtCorrelation"
         /\ exists mc, assocMCof this data track = Some mc
            /\ fillData f
               = [Qabs (Pt mc); Qabs (Pt track); Eta track; Phi track])
        \/ (exists n vz mb,
              (fillName f = Form "hTrackHist" n
               \/ fillName f = Form "hTrackInAcceptanceHist" n)
              /\ fillData f
                 = [ Qabs (Pt track);
                     if fSwapEta this then - Eta track else Eta track;
                     Phi track; vz; mb ])
        \/ (exists n vz mb mc,
              (fillName f = Form "hMCTrackHist" n
               \/ fillName f = Form "hMCTrackInAcceptanceHist" n)
              /\ assocMCof this data track = Some mc
              /\ fillData f
                 = [ Qabs (Pt mc);
                     if fSwapEta this then - Eta mc else Eta mc;
                     Phi mc; vz; mb ]))
    /\ (forall pt rest, fillData f = pt :: rest -> 0 <= pt).
Proof.
  intros Hin.
  apply Process_fills_in in Hin as (container & track & Hc & Ht & _ & Hf).
  exists container, track. split; [assumption|]. split; [assumption|].
  apply selectedFills_in in Hf
    as [(mc & Hmc & ->) | (n & _ & [-> | [[_ ->] | (mc & Hmc & [-> | [_ ->]])]])];
    (split;
     [| intros pt rest [= <- _]; apply Qabs_nonneg]).
  - left. split; [reflexivity|]. now exists mc.
  - right; left. exists n. do 2 eexists. split; [left|]; reflexivity.
  - right; left. exists n. do 2 eexists. split; [right|]; reflexivity.
  - right; right. exists n. do 2 eexists. exists mc.
    split; [left; reflexivity|]. split; [assumption | reflexivity].
  - right; right. exists n. do 2 eexists. exists mc.
    split; [right; reflexivity|]. split; [assumption | reflexivity].
Qed.

(** The correlation fill of the simulated event: (4.8, 5.0, 0.3, 1.0). *)
Lemma C10_recorded_pt_is_magnitude_witness :
  In (mkFill "hTrackPtCorrelation" [48 # 10; 5; 3 # 10; 1] 1)
    (fills (trace (Process Scenario.mcTruthWeighted Scenario.simulated)))
  /\ exists container track,
       GetMatchedTrackContainer Scenario.simulated = Some container
       /\ In track (trackIter container)
       /\ exists mc,
            assocMCof Scenario.mcTruthWeighted Scenario.simulated track
            = Some mc
            /\ [48 # 10; 5; 3 # 10; 1]
               = [Qabs (Pt mc); Qabs (Pt track); Eta track; Phi track].
Proof.
  assert (Hin : In (mkFill "hTrackPtCorrelation" [48 # 10; 5; 3 # 10; 1] 1)
                  (fills (trace (Process Scenario.mcTruthWeighted
                                   Scenario.simulated))))
    by (vm_compute; left; reflexivity).
  split; [exact Hin|].
  destruct (C10_recorded_pt_is_magnitude _ _ _ Hin)
    as (container & track & Hc & Ht & H & _).
  exists container, track. split; [exact Hc|]. split; [exact Ht|].
  destruct H as [[_ H] | [(n & vz & mb & [Hn | Hn] & _)
                         | (n & vz & mb & mc & [Hn | Hn] & _)]];
    [exact H | cbn in Hn; unfold Form in Hn; cbn in Hn; discriminate Hn ..].
Defined.

(** * Further properties of the code *)

(** ** The histogram schema *)

(** A histogram found under a name is declared and bears that name. *)
Lemma lookupHist_some name defs h :
  lookupHist name defs = Some h -> In h defs /\ hName h = name.
Proof.
  unfold lookupHist. intros H. apply find_some in H as [Hin Hn].
  split; [exact Hin | now apply String.eqb_eq].
Qed.

(** X1. [CreateHistos] declares 45 histograms under 45 different names: for
    each of the eleven trigger classes the four aggregates
    [hTrackHist<class>], [hTrackInAcceptanceHist<class>],
    [hMCTrackHist<class>] and [hMCTrackInAcceptanceHist<class>], each with
    the five axes pt, eta, phi, zvertex, mbtrigger in this order and the
    option "s", and the correlation matrix [hTrackPtCorrelation] with the
    four axes ptgen, ptrec, eta, phi. *)
Theorem X1_CreateHistos_schema :
  List.length (created CreateHistos) = 45%nat
  /\ NoDup (map hName (created CreateHistos))
  /\ Forall
       (fun class =>
          Forall
            (fun prefix =>
               exists h,
                 lookupHist (Form prefix class) (created CreateHistos)
                 = Some h
                 /\ hDim h = 5%nat
                 /\ map axisName (hAxes h)
                    = ["pt"; "eta"; "phi"; "zvertex"; "mbtrigger"]
                 /\ hOption h = Some "s")
            [ "hTrackHist"; "hTrackInAcceptanceHist"; "hMCTrackHist";
              "hMCTrackInAcceptanceHist" ])
       triggernames
  /\ exists h,
       lookupHist "hTrackPtCorrelation" (created CreateHistos) = Some h
       /\ hDim h = 4%nat
       /\ map axisName (hAxes h) = ["ptgen"; "ptrec"; "eta"; "phi"].
Proof.
  split; [reflexivity|]. split; [|split].
  - assert (E : nodup string_dec (map hName (created CreateHistos))
                = map hName (created CreateHistos))
      by (vm_compute; reflexivity).
    rewrite <- E. apply NoDup_nodup.
  - repeat constructor; eexists; (split; [vm_compute; reflexivity|]);
      repeat split.
  - eexists. split; [vm_compute; reflexivity|]. repeat split.
Qed.

(** X2. [CreateHistos] deletes exactly the five track axes it made, after the
    last histogram is declared; the four axes made for the correlation
    matrix are never deleted. *)
Theorem X2_CreateHistos_axes_deleted :
  deleted CreateHistos = map fst trackaxes
  /\ allocated CreateHistos = map fst trackaxes ++ map fst corraxes
  /\ NoDup (allocated CreateHistos)
  /\ Forall (fun id => ~ In id (deleted CreateHistos)) (map fst corraxes)
  /\ exists before,
       CreateHistos
       = before ++ map DeleteAxis (deleted CreateHistos)
       /\ deleted before = [].
Proof.
  split; [reflexivity|]. split; [reflexivity|]. split; [|split].
  - assert (E : nodup Nat.eq_dec (allocated CreateHistos)
                = allocated CreateHistos) by (vm_compute; reflexivity).
    rewrite <- E. apply NoDup_nodup.
  - repeat constructor; vm_compute; intuition discriminate.
  - exists (firstn 54 CreateHistos). split; vm_compute; reflexivity.
Qed.

(** The four histograms of a known trigger class are declared, with five
    axes each. *)
Lemma declared_trigger_hist class prefix :
  In class triggernames ->
  In prefix [ "hTrackHist"; "hTrackInAcceptanceHist"; "hMCTrackHist";
              "hMCTrackInAcceptanceHist" ] ->
  exists h,
    lookupHist (Form prefix class) (created CreateHistos) = Some h
    /\ hDim h = 5%nat.
Proof.
  intros Hc Hp.
  repeat (destruct Hc as [<- | Hc]; [|]); try destruct Hc;
    repeat (destruct Hp as [<- | Hp]; [|]); try destruct Hp;
    eexists; split; vm_compute; reflexivity.
Qed.

(** X3. When the trigger classes of the event are among the eleven that
    [CreateHistos] knows, every fill that [Process] makes goes to a
    histogram that [CreateHistos] declared, with as many numbers as the
    histogram has axes. *)
Theorem X3_fills_go_to_declared_histograms
    (this : AliEMCalTriggerRecTrackAnalysisComponent)
    (data : AliEMCalTriggerEventData) (f : FillRecord) :
  incl (GetMachingTriggerNames this (fTriggerMethod this)) triggernames ->
  In f (fills (trace (Process this data))) ->
  exists h,
    lookupHist (fillName f) (created CreateHistos) = Some h
    /\ In h (created CreateHistos)
    /\ hDim h = List.length (fillData f)
    /\ List.length (hAxes h) = List.length (fillData f).
Proof.
  intros Hincl Hin.
  assert (Hlen : forall h : THnSparseDef,
            In h (created CreateHistos) ->
            List.length (hAxes h) = hDim h).
  { apply Forall_forall. vm_compute. repeat constructor. }
  enough (H : exists h,
            lookupHist (fillName f) (created CreateHistos) = Some h
            /\ hDim h = List.length (fillData f)).
  { destruct H as (h & Hl & Hd). exists h.
    destruct (lookupHist_some _ _ _ Hl) as [Hh _].
    repeat split; try assumption. now rewrite (Hlen h Hh). }
  apply Process_fills_in in Hin as (container & track & _ & _ & _ & Hf).
  apply selectedFills_in in Hf
    as [(mc & _ & ->) | (n & Hn & [-> | [[_ ->] | (mc & _ & [-> | [_ ->]])]])].
  - eexists. split; vm_compute; reflexivity.
  - apply (declared_trigger_hist n "hTrackHist"); [auto | cbn; auto].
  - apply (declared_trigger_hist n "hTrackInAcceptanceHist");
      [auto | cbn; auto].
  - apply (declared_trigger_hist n "hMCTrackHist"); [auto | cbn; auto].
  - apply (declared_trigger_hist n "hMCTrackInAcceptanceHist");
      [auto | cbn; auto 6].
Qed.

(** The fill of the first end-to-end scenario goes to the declared
    [hTrackHistMinBias]. *)
Lemma X3_fills_go_to_declared_histograms_witness :
  exists h,
    lookupHist "hTrackHistMinBias" (created CreateHistos) = Some h
    /\ In h (created CreateHistos)
    /\ hDim h = 5%nat
    /\ List.length (hAxes h) = 5%nat.
Proof.
  apply (X3_fills_go_to_declared_histograms Scenario.plain Scenario.unmatched
           (mkFill "hTrackHistMinBias" [5; 3 # 10; 1; 2; 1] 1)).
  - intros n [<- | []]. vm_compute. tauto.
  - vm_compute. left. reflexivity.
Defined.

(** ** [IsMCTrueTrack] *)

(** Tracks with the same absolute label get the same answer. *)
Lemma IsMCTrueTrack_abs_label trk1 trk2 evnt :
  Z.abs (GetLabel trk1) = Z.abs (GetLabel trk2) ->
  IsMCTrueTrack trk1 evnt = IsMCTrueTrack trk2 evnt.
Proof.
  intros H. unfold IsMCTrueTrack. rewrite !TMath_AbsInt_wrap, H. reflexivity.
Qed.

(** X4. [IsMCTrueTrack] looks at the track through the absolute value of
    its label only: two tracks whose labels agree up to the sign, whatever
    their kinematics and cluster indices, are matched to the same particle
    or both to none. *)
Theorem X4_IsMCTrueTrack_label_sign
    (trk1 trk2 : AliVTrack) (evnt : AliMCEvent) :
  GetLabel trk1 = GetLabel trk2 \/ GetLabel trk1 = (- GetLabel trk2)%Z ->
  IsMCTrueTrack trk1 evnt = IsMCTrueTrack trk2 evnt.
Proof.
  intros H. apply IsMCTrueTrack_abs_label. lia.
Qed.

(** A track with label -7 is matched like one with label 7. *)
Lemma X4_IsMCTrueTrack_label_sign_witness :
  IsMCTrueTrack (VTrack (mkTrackParam 1 0 0 (-7) (-1))) Scenario.generated
  = IsMCTrueTrack (Scenario.track 3) Scenario.generated.
Proof.
  apply X4_IsMCTrueTrack_label_sign. right. reflexivity.
Defined.

(** X5. For an AOD particle its own physical-primary flag decides and the
    MC event is not asked: when the particle at the absolute value of the
    label (as [TMath::Abs] computes it on [Int_t]) is an AOD particle, or
    when there is none, the answer stays the same whatever
    [IsPhysicalPrimary] of the MC event says; an AOD particle is returned
    iff its own flag is set. *)
Theorem X5_IsMCTrueTrack_aod_flag
    (trk : AliVTrack) (evnt : AliMCEvent) (answer : Int_t -> bool) :
  (forall mcpart,
     GetTrack evnt (TMath.AbsInt (GetLabel trk)) = Some mcpart ->
     aodPrimary mcpart <> None) ->
  IsMCTrueTrack trk {| GetTrack := GetTrack evnt; IsPhysicalPrimary := answer |}
  = IsMCTrueTrack trk evnt
  /\ forall mcpart,
       IsMCTrueTrack trk evnt = Some mcpart <->
       GetTrack evnt (TMath.AbsInt (GetLabel trk)) = Some mcpart
       /\ aodPrimary mcpart = Some true.
Proof.
  intros Haod. unfold IsMCTrueTrack. cbn [GetTrack IsPhysicalPrimary].
  destruct (GetTrack evnt (TMath.AbsInt (GetLabel trk))) as [p|].
  - specialize (Haod p eq_refl).
    destruct (aodPrimary p) as [[|]|] eqn:Ha; [| |congruence]; cbn;
      (split; [reflexivity|]); intros q; split.
    + intros [= <-]. auto.
    + intros [[= <-] _]. reflexivity.
    + discriminate.
    + intros [[= <-] H]. congruence.
  - split; [reflexivity|]. intros q. split; [discriminate|].
    intros [H _]. discriminate.
Qed.

(** An AOD particle flagged as not primary is not returned although the
    MC event calls every label primary. *)
Lemma X5_IsMCTrueTrack_aod_flag_witness :
  IsMCTrueTrack (Scenario.track 3)
    {| GetTrack := fun _ => Some (mkMCParticle 1 0 0 (Some false));
       IsPhysicalPrimary := fun _ => true |}
  = IsMCTrueTrack (Scenario.track 3)
      {| GetTrack := fun _ => Some (mkMCParticle 1 0 0 (Some false));
         IsPhysicalPrimary := fun _ => false |}.
Proof.
  refine (proj1 (X5_IsMCTrueTrack_aod_flag (Scenario.track 3)
                   {| GetTrack :=
                        fun _ => Some (mkMCParticle 1 0 0 (Some false));
                      IsPhysicalPrimary := fun _ => false |}
                   (fun _ => true) _)).
  intros mcpart H. injection H as <-. discriminate.
Defined.

(** ** The event loop as a whole *)

(** Loops with bodies that agree on the elements visited agree. *)
Lemma forEach_ext_in {A} (l : list A) (body1 body2 : A -> Exec unit) :
  (forall x, In x l -> body1 x = body2 x) ->
  forEach l body1 = forEach l body2.
Proof.
  induction l as [|x l IH]; intros H; [reflexivity|].
  cbn [forEach]. rewrite (H x (or_introl eq_refl)), IH; [reflexivity|].
  intros y Hy. apply H. now right.
Qed.

(** A fill of a loop belongs to a round all of whose fills are in the
    trace of the loop. *)
Lemma forEach_fills_rounds {A} (l : list A) (body : A -> Exec unit) f :
  In f (fills (trace (forEach l body))) ->
  exists x,
    In x l
    /\ In f (fills (trace (body x)))
    /\ incl (fills (trace (body x))) (fills (trace (forEach l body))).
Proof.
  induction l as [|x l IH]; cbn; [tauto|].
  destruct (body x) as [tr [[]|]] eqn:E; cbn.
  - rewrite fills_app, in_app_iff. intros [H|H].
    + exists x. rewrite E. cbn. repeat split; auto.
      intros g Hg. apply in_or_app. now left.
    + destruct (IH H) as (y & Hy & Hf & Hincl). exists y.
      repeat split; auto. intros g Hg. apply in_or_app. right. now apply Hincl.
  - intros H. exists x. rewrite E. cbn. repeat split; auto.
    intros g Hg. exact Hg.
Qed.

(** No round of the track loop logs at error severity. *)
Lemma processTrack_no_errors this data names weight track :
  errors (trace (processTrack this data names weight track)) = [].
Proof.
  destruct (passesSelection this data track) eqn:Hs.
  - rewrite (processTrack_selected this data names weight track Hs).
    destruct (clusterLookupFaults data track); cbn [trace fst];
      [apply errors_fillEvent | apply errors_selectedTrace].
  - unfold processTrack, AliDebug.
    destruct (failsKineCuts this track) eqn:Hk; [reflexivity|].
    destruct (failsTrackSelection this track) eqn:Ht.
    { destruct (2 <=? fDebugLevel this)%Z; reflexivity. }
    unfold passesSelection, passesCuts, assocMCof in Hs.
    rewrite Hk, Ht in Hs. cbn in Hs.
    destruct (fRequestMCtrue this); [|discriminate].
    destruct (GetMCEvent data) as [evnt|]; [|reflexivity].
    rewrite bind_deref_some.
    destruct (IsMCTrueTrack track evnt); [discriminate | reflexivity].
Qed.

Lemma forEach_no_errors {A} (l : list A) (body : A -> Exec unit) :
  (forall x, errors (trace (body x)) = []) ->
  errors (trace (forEach l body)) = [].
Proof.
  intros H. induction l as [|x l IH]; [reflexivity|].
  cbn. specialize (H x). destruct (body x) as [tr [[]|]]; cbn in *.
  - rewrite errors_app, H, IH. reflexivity.
  - exact H.
Qed.

(** A fill of an event belongs to a candidate all of whose fills are in the
    trace of the event. *)
Lemma Process_fills_rounds this data f :
  In f (fills (trace (Process this data))) ->
  exists container track,
    GetMatchedTrackContainer data = Some container
    /\ In track (trackIter container)
    /\ In f (trackFills this data track)
    /\ incl (trackFills this data track) (fills (trace (Process this data))).
Proof.
  destruct (fRequestMCtrue this && isNull (GetMCEvent data)) eqn:Hskip.
  { destruct (Process_skipped this data Hskip) as [-> _]. intros []. }
  destruct (GetMatchedTrackContainer data) as [container|] eqn:Hc.
  - destruct (Process_loop this data _ Hc Hskip) as [-> _]. intros H.
    apply forEach_fills_rounds in H as (track & Hin & Hf & Hincl).
    exists container, track. auto.
  - rewrite (Process_no_container this data Hc), Hskip.
    destruct (1 <=? fDebugLevel this)%Z; intros [].
Qed.

(** X6. Every fill that [Process] makes has the shape of its histogram:
    four numbers for the correlation matrix, and for every other aggregate
    five numbers of which the fourth is the z of the primary vertex of the
    reconstructed event and the fifth 1 or 0 as the event is minimum bias or
    not, the same in all fills of the event. *)
Theorem X6_fill_shape
    (this : AliEMCalTriggerRecTrackAnalysisComponent)
    (data : AliEMCalTriggerEventData) (f : FillRecord) :
  In f (fills (trace (Process this data))) ->
  if isCorrelation f
  then fillName f = "hTrackPtCorrelation"
       /\ List.length (fillData f) = 4%nat
  else exists pt eta phi,
         fillData f
         = [ pt; eta; phi; GetPrimaryVertexZ (GetRecEvent data);
             if IsMinBias (fTriggerDecision this) then 1 else 0 ].
Proof.
  intros Hin.
  apply Process_fills_in in Hin as (container & track & _ & _ & _ & Hf).
  apply selectedFills_in in Hf
    as [(mc & _ & ->) | (n & _ & [-> | [[_ ->] | (mc & _ & [-> | [_ ->]])]])];
    cbn; [split; reflexivity | do 3 eexists; reflexivity ..].
Qed.

Lemma X6_fill_shape_witness :
  exists pt eta phi, [5; 3 # 10; 1; 2; 1] = [pt; eta; phi; 2; 1].
Proof.
  exact (X6_fill_shape Scenario.plain Scenario.unmatched
           (mkFill "hTrackHistMinBias" [5; 3 # 10; 1; 2; 1] 1)
           (or_introl eq_refl)).
Defined.

(** X7. When [Process] runs to its end, for an event with its
    reconstructed event and primary vertex and a component with its trigger
    decision: without
    the container of matched tracks iff the debug line of line 178 is not
    built (debug level below 1); with the container iff every candidate that
    passes selection has the track whose cluster index is used (a pico track
    the track it wraps) and, unless that index is negative, the event has
    its cluster container.  Lines 213 to 215 check neither pointer. *)
Theorem X7_Process_completes_iff
    (this : AliEMCalTriggerRecTrackAnalysisComponent)
    (data : AliEMCalTriggerEventData) :
  returned (Process this data)
  <-> match GetMatchedTrackContainer data with
      | None => (fDebugLevel this < 1)%Z
      | Some container =>
          forall track,
            In track (trackIter container) ->
            passesSelection this data track = true ->
            exists t,
              testtrackOf track = Some t
              /\ ((GetEMCALcluster t < 0)%Z
                  \/ GetClusterContainer data <> None)
      end.
Proof.
  destruct (GetMatchedTrackContainer data) as [container|] eqn:Hc.
  - rewrite (Process_returned_iff this data container Hc).
    unfold clusterLookupsDefined, clusterLookupFaults.
    split; intros H track Hin Hs; specialize (H track Hin Hs).
    + destruct (testtrackOf track) as [t|]; [|discriminate].
      exists t. split; [reflexivity|].
      apply andb_false_iff in H as [H|H].
      * left. now apply Z.leb_gt.
      * right. now destruct (GetClusterContainer data).
    + destruct H as (t & -> & [H|H]).
      * apply Z.leb_gt in H. now rewrite H.
      * destruct (GetClusterContainer data); [apply andb_false_r | congruence].
  - rewrite (Process_no_container this data Hc). unfold returned.
    destruct (Z.leb_spec 1 (fDebugLevel this)); cbn.
    + split; [congruence | lia].
    + destruct (fRequestMCtrue this && isNull (GetMCEvent data)); cbn;
        split; intros; [assumption | congruence | assumption | congruence].
Qed.

(** A pico track that has lost the track it was made from ends the event
    at line 215, although it has a cluster index of its own and the event
    its cluster container. *)
Example scenario_stray_pico_track :
  Process Scenario.plain Scenario.strayPicoTrack = ([], None).
Proof. reflexivity. Qed.

(** A report of [At] in a trace of the track loop comes from a round. *)
Lemma forEach_trace_in {A} (l : list A) (body : A -> Exec unit) e :
  In e (trace (forEach l body)) ->
  exists x, In x l /\ In e (trace (body x)).
Proof.
  induction l as [|x l IH]; cbn; [tauto|].
  destruct (body x) as [tr [[]|]] eqn:E; cbn.
  - rewrite in_app_iff. intros [H|H].
    + exists x. rewrite E. auto.
    + destruct (IH H) as (y & Hy & Hf). exists y. auto.
  - intros H. exists x. rewrite E. auto.
Qed.

(** Fills are no reports of [At]. *)
Lemma bounds_not_fillEvent index size (l : list FillRecord) :
  ~ In (BoundsError index size) (map fillEvent l).
Proof.
  induction l as [|f l IH]; cbn; [tauto|]. intros [H|H]; [discriminate | auto].
Qed.

(** What [At] reports for a candidate. *)
Lemma boundsReport_in data track index size :
  In (BoundsError index size) (boundsReport data track) ->
  exists clusters t,
    GetClusterContainer data = Some clusters
    /\ testtrackOf track = Some t
    /\ index = GetEMCALcluster t
    /\ size = Z.of_nat (List.length clusters)
    /\ (size <= index)%Z.
Proof.
  unfold boundsReport.
  destruct (testtrackOf track) as [t|]; [|intros []].
  destruct (GetClusterContainer data) as [clusters|]; [|intros []].
  destruct (_ && _) eqn:E; [|intros []].
  intros [[= <- <-] | []]. apply andb_true_iff in E as [_ E].
  apply Z.leb_le in E. exists clusters, t. auto.
Qed.

(** A report of [At] in a round is the report for a selected candidate. *)
Lemma processTrack_bounds this data names weight track index size :
  In (BoundsError index size)
    (trace (processTrack this data names weight track)) ->
  passesSelection this data track = true
  /\ In (BoundsError index size) (boundsReport data track).
Proof.
  destruct (passesSelection this data track) eqn:Hs.
  - rewrite (processTrack_selected this data names weight track Hs).
    destruct (clusterLookupFaults data track); cbn [trace fst]; intros H.
    + now apply bounds_not_fillEvent in H.
    + split; [reflexivity|]. unfold selectedTrace in H.
      apply in_app_or in H as [H|H]; [now apply bounds_not_fillEvent in H|].
      apply in_app_or in H as [H|H]; [exact H|].
      now apply bounds_not_fillEvent in H.
  - unfold processTrack, AliDebug.
    destruct (failsKineCuts this track) eqn:Hk; [intros []|].
    destruct (failsTrackSelection this track) eqn:Ht.
    { destruct (2 <=? fDebugLevel this)%Z; cbn;
        [intros [H|[]]; discriminate | intros []]. }
    unfold passesSelection, passesCuts, assocMCof in Hs.
    rewrite Hk, Ht in Hs. cbn in Hs.
    destruct (fRequestMCtrue this); [|discriminate].
    destruct (GetMCEvent data) as [evnt|]; [|intros []].
    rewrite bind_deref_some.
    destruct (IsMCTrueTrack track evnt); [discriminate | intros []].
Qed.

(** A report of [At] in the trace of an event is the report for one of its
    selected candidates. *)
Lemma Process_bounds this data index size :
  In (BoundsError index size) (trace (Process this data)) ->
  exists container track,
    GetMatchedTrackContainer data = Some container
    /\ In track (trackIter container)
    /\ passesSelection this data track = true
    /\ In (BoundsError index size) (boundsReport data track).
Proof.
  unfold Process, AliDebug, AliError.
  destruct (GetMatchedTrackContainer data) as [container|].
  - assert (Hloop :
      In (BoundsError index size)
        (trace (forEach (trackIter container)
                  (processTrack this data
                     (GetMachingTriggerNames this (fTriggerMethod this))
                     (eventWeight this data)))) ->
      exists container0 track,
        Some container = Some container0
        /\ In track (trackIter container0)
        /\ passesSelection this data track = true
        /\ In (BoundsError index size) (boundsReport data track)).
    { intros H. apply forEach_trace_in in H as (track & Hin & H).
      apply processTrack_bounds in H as [Hs H].
      exists container, track. auto. }
    destruct (fRequestMCtrue this && isNull (GetMCEvent data));
      destruct (1 <=? fDebugLevel this)%Z; cbn;
      destruct (forEach (trackIter container) _) as [tr r]; cbn in *;
      intros H; try (destruct H as [H|H]; [discriminate|]);
      try (now destruct H); auto.
  - destruct (fRequestMCtrue this && isNull (GetMCEvent data));
      destruct (1 <=? fDebugLevel this)%Z; cbn;
      intros H; repeat (destruct H as [H|H]; [discriminate|]); now destruct H.
Qed.

(** X8. [Process] logs at error severity through [AliError] in one case
    only, and then the one line "No container for matched tracks": the
    container is missing, the debug line of line 178 is not built, and line
    179 does not end the event first.  The other error reports of an event
    are those of [TObjArray::At] at line 215: one for a candidate that
    passes selection and whose cluster index lies beyond the slots of the
    cluster container, with that index and the size of the container. *)
Theorem X8_Process_error_log
    (this : AliEMCalTriggerRecTrackAnalysisComponent)
    (data : AliEMCalTriggerEventData) :
  errors (trace (Process this data))
  = (if isNull (GetMatchedTrackContainer data)
        && (fDebugLevel this <? 1)%Z
        && negb (fRequestMCtrue this && isNull (GetMCEvent data))
     then ["No container for matched tracks"]
     else [])
  /\ forall index size,
       In (BoundsError index size) (trace (Process this data)) ->
       exists container clusters track t,
         GetMatchedTrackContainer data = Some container
         /\ GetClusterContainer data = Some clusters
         /\ In track (trackIter container)
         /\ passesSelection this data track = true
         /\ testtrackOf track = Some t
         /\ index = GetEMCALcluster t
         /\ size = Z.of_nat (List.length clusters)
         /\ (size <= index)%Z.
Proof.
  split.
  - destruct (GetMatchedTrackContainer data) as [container|] eqn:Hc.
    + cbn [isNull andb].
      destruct (fRequestMCtrue this && isNull (GetMCEvent data)) eqn:Hskip.
      * now destruct (Process_skipped this data Hskip) as (_ & -> & _).
      * destruct (Process_loop this data _ Hc Hskip) as (_ & -> & _).
        apply forEach_no_errors. intros track. apply processTrack_no_errors.
    + rewrite (Process_no_container this data Hc). cbn [isNull andb].
      rewrite Z.ltb_antisym.
      destruct (1 <=? fDebugLevel this)%Z; [reflexivity|]. cbn.
      destruct (fRequestMCtrue this && isNull (GetMCEvent data)); reflexivity.
  - intros index size H.
    apply Process_bounds in H as (container & track & Hc & Hin & Hs & H).
    apply boundsReport_in in H as (clusters & t & Hcl & Ht & Hi & Hn & Hle).
    exists container, clusters, track, t. auto 10.
Qed.

(** A cluster index beyond the four slots of the cluster container: [At]
    reports it, no cluster is matched, and the raw aggregate is filled. *)
Example scenario_index_beyond_clusters :
  Process Scenario.plain Scenario.indexBeyondClusters
  = ([ BoundsError 9 4;
       Fill "hTrackHistMinBias" [5; 3 # 10; 1; 2; 1] 1 ],
     Some tt).
Proof. reflexivity. Qed.

(** The track loop stops at the first object that is not a track. *)
Lemma trackIter_stops (c1 c2 : TClonesArray) (o : TObject) :
  asTrack o = None ->
  trackIter (c1 ++ Some o :: c2) = trackIter c1.
Proof.
  intros Ho. induction c1 as [|[o1|] c1 IH]; cbn.
  - now rewrite Ho.
  - destruct (asTrack o1); [now rewrite IH | reflexivity].
  - exact IH.
Qed.

(** X9. An object of the container of matched tracks that is not a track
    ends the track loop: the tracks behind it are not looked at.  The fills,
    the error log and the outcome of the event are those of the event with
    the container cut off before that object. *)
Theorem X9_non_track_object_ends_loop
    (this : AliEMCalTriggerRecTrackAnalysisComponent)
    (data : AliEMCalTriggerEventData) (c1 c2 : TClonesArray) (o : TObject) :
  asTrack o = None ->
  fills (trace (Process this (withTracks data (Some (c1 ++ Some o :: c2)))))
  = fills (trace (Process this (withTracks data (Some c1))))
  /\ errors (trace (Process this
                      (withTracks data (Some (c1 ++ Some o :: c2)))))
     = errors (trace (Process this (withTracks data (Some c1))))
  /\ result (Process this (withTracks data (Some (c1 ++ Some o :: c2))))
     = result (Process this (withTracks data (Some c1))).
Proof.
  intros Ho.
  destruct (fRequestMCtrue this && isNull (GetMCEvent data)) eqn:Hskip.
  - unfold Process, AliDebug. cbn [GetMatchedTrackContainer GetMCEvent
                                     withTracks].
    rewrite Hskip. destruct (1 <=? fDebugLevel this)%Z; cbn; auto.
  - destruct (Process_loop this (withTracks data (Some (c1 ++ Some o :: c2)))
                (c1 ++ Some o :: c2) eq_refl Hskip) as (-> & -> & ->).
    destruct (Process_loop this (withTracks data (Some c1)) c1 eq_refl Hskip)
      as (-> & -> & ->).
    rewrite (trackIter_stops c1 c2 o Ho). repeat split.
Qed.

(** A cluster object between two tracks: the second track gets no fill. *)
Lemma X9_non_track_object_ends_loop_witness :
  fills (trace (Process Scenario.plain
                  (withTracks Scenario.unmatched
                     (Some ([Some (TrackObject (Scenario.track (-1)))]
                            ++ Some (ClusterObject (mkCluster 1))
                               :: [Some (TrackObject (Scenario.track (-1)))])))))
  = [mkFill "hTrackHistMinBias" [5; 3 # 10; 1; 2; 1] 1].
Proof.
  rewrite (proj1 (X9_non_track_object_ends_loop Scenario.plain
                    Scenario.unmatched
                    [Some (TrackObject (Scenario.track (-1)))]
                    [Some (TrackObject (Scenario.track (-1)))]
                    (ClusterObject (mkCluster 1)) eq_refl)).
  reflexivity.
Defined.

(** X10. Of a pico track the loop records the kinematics and uses the
    label of the pico track itself, but looks up the cluster with the index
    of the track it wraps: the cluster index of the pico track itself is
    never read.  Two pico tracks around the same track (or both without
    one) that agree in pt, eta, phi and label, and that the cuts treat
    alike, make the same round of the loop. *)
Theorem X10_pico_track_cluster_index
    (this : AliEMCalTriggerRecTrackAnalysisComponent)
    (data : AliEMCalTriggerEventData) (names : list string)
    (weight : Double_t) (p1 p2 : TrackParam) (orig : option AliVTrack) :
  trkPt p1 = trkPt p2 ->
  trkEta p1 = trkEta p2 ->
  trkPhi p1 = trkPhi p2 ->
  trkLabel p1 = trkLabel p2 ->
  failsKineCuts this (PicoTrack p1 orig)
  = failsKineCuts this (PicoTrack p2 orig) ->
  failsTrackSelection this (PicoTrack p1 orig)
  = failsTrackSelection this (PicoTrack p2 orig) ->
  processTrack this data names weight (PicoTrack p1 orig)
  = processTrack this data names weight (PicoTrack p2 orig)
  /\ hasClusterOf data (PicoTrack p1 orig)
     = match orig with
       | Some wrapped =>
           (0 <=? GetEMCALcluster wrapped)%Z
           && negb (isNull
                      (match GetClusterContainer data with
                       | Some clusters =>
                           match slotAt clusters (GetEMCALcluster wrapped) with
                           | Some o => asCluster o
                           | None => None
                           end
                       | None => None
                       end))
       | None => false
       end.
Proof.
  intros Hpt Heta Hphi Hlabel Hk Ht. split; [|destruct orig; reflexivity].
  unfold processTrack. rewrite Hk, Ht.
  destruct (failsKineCuts this (PicoTrack p2 orig)); [reflexivity|].
  destruct (failsTrackSelection this (PicoTrack p2 orig)); [reflexivity|].
  assert (Hfill : forall assocMC,
            matchAndFill this data names weight (PicoTrack p1 orig) assocMC
            = matchAndFill this data names weight (PicoTrack p2 orig) assocMC).
  { intros assocMC. rewrite !matchAndFill_eq.
    change (clusterLookupFaults data (PicoTrack p1 orig))
      with (clusterLookupFaults data (PicoTrack p2 orig)).
    change (hasClusterOf data (PicoTrack p1 orig))
      with (hasClusterOf data (PicoTrack p2 orig)).
    change (boundsReport data (PicoTrack p1 orig))
      with (boundsReport data (PicoTrack p2 orig)).
    destruct (clusterLookupFaults data (PicoTrack p2 orig)); [reflexivity|].
    unfold triggerFills, kineTuple.
    cbn [Pt Eta Phi AliVTrack_particle param].
    rewrite Hpt, Heta, Hphi. reflexivity. }
  destruct (fRequestMCtrue this); [|apply Hfill].
  destruct (GetMCEvent data) as [evnt|]; [|reflexivity].
  rewrite !bind_deref_some.
  assert (Hmc : IsMCTrueTrack (PicoTrack p1 orig) evnt
                = IsMCTrueTrack (PicoTrack p2 orig) evnt).
  { apply IsMCTrueTrack_abs_label. unfold GetLabel. cbn [param].
    now rewrite Hlabel. }
  rewrite Hmc. destruct (IsMCTrueTrack (PicoTrack p2 orig) evnt) as [mc|];
    [|reflexivity].
  rewrite !FillCorrelation_eq, !bind_emit, Hfill. unfold corrTuple.
  cbn [Pt Eta Phi AliVTrack_particle param]. rewrite Hpt, Heta, Hphi.
  reflexivity.
Qed.

(** A pico track with its own cluster index -1, or 0, around a track with
    the cluster index 3: the cluster in slot 3 is matched either way. *)
Lemma X10_pico_track_cluster_index_witness :
  processTrack Scenario.plain Scenario.matched ["MinBias"] 1
    (PicoTrack (mkTrackParam 4 0 1 7 (-1)) (Some (Scenario.track 3)))
  = processTrack Scenario.plain Scenario.matched ["MinBias"] 1
      (PicoTrack (mkTrackParam 4 0 1 7 0) (Some (Scenario.track 3)))
  /\ hasClusterOf Scenario.matched
       (PicoTrack (mkTrackParam 4 0 1 7 (-1)) (Some (Scenario.track 3)))
     = true.
Proof.
  destruct (X10_pico_track_cluster_index Scenario.plain Scenario.matched
              ["MinBias"] 1 (mkTrackParam 4 0 1 7 (-1))
              (mkTrackParam 4 0 1 7 0) (Some (Scenario.track 3))
              eq_refl eq_refl eq_refl eq_refl eq_refl eq_refl) as [H1 H2].
  split; [exact H1 | rewrite H2; reflexivity].
Defined.

(** Names formatted from the same literal text are equal only for equal
    arguments. *)
Lemma Form_inj (fmt a b : string) : Form fmt a = Form fmt b -> a = b.
Proof.
  unfold Form. induction fmt as [|c fmt IH]; cbn; [auto|].
  intros H. injection H. exact IH.
Qed.

(** The fills of a candidate that has any fill beyond the correlation
    matrix are those of a selected candidate whose cluster lookup was
    defined. *)
Lemma trackFills_beyond_correlation this data track f :
  In f (trackFills this data track) ->
  isCorrelation f = false ->
  trackFills this data track
  = selectedFills this data
      (GetMachingTriggerNames this (fTriggerMethod this))
      (eventWeight this data) track.
Proof.
  intros Hf Hcorr.
  assert (Hs : passesSelection this data track = true)
    by (now apply processTrack_fills_in in Hf).
  destruct (clusterLookupFaults data track) eqn:Hd.
  - exfalso. unfold trackFills in Hf.
    rewrite (processTrack_selected this data _ _ track Hs), Hd in Hf.
    cbn [trace fst] in Hf. rewrite fills_fillEvent in Hf.
    destruct (assocMCof this data track); [|destruct Hf].
    destruct Hf as [<- | []]. discriminate Hcorr.
  - apply trackFills_selected; assumption.
Qed.

(** X11. The aggregates of an event are nested.  Every fill of
    [hTrackInAcceptanceHist<class>] comes with a fill of
    [hTrackHist<class>] of the same numbers and weight; every fill of
    [hMCTrackInAcceptanceHist<class>] with a fill of [hMCTrackHist<class>]
    of the same numbers and weight; and every fill of
    [hMCTrackHist<class>] with a fill of [hTrackHist<class>] of the same
    weight and with a fill of the correlation matrix whose generated pt is
    the pt of the MC fill. *)
Theorem X11_aggregates_nested
    (this : AliEMCalTriggerRecTrackAnalysisComponent)
    (data : AliEMCalTriggerEventData) (f : FillRecord) (class : string) :
  In f (fills (trace (Process this data))) ->
  (fillName f = Form "hTrackInAcceptanceHist" class ->
   In (mkFill (Form "hTrackHist" class) (fillData f) (fillWeight f))
     (fills (trace (Process this data))))
  /\ (fillName f = Form "hMCTrackInAcceptanceHist" class ->
      In (mkFill (Form "hMCTrackHist" class) (fillData f) (fillWeight f))
        (fills (trace (Process this data))))
  /\ (fillName f = Form "hMCTrackHist" class ->
      exists raw corr,
        In raw (fills (trace (Process this data)))
        /\ fillName raw = Form "hTrackHist" class
        /\ fillWeight raw = fillWeight f
        /\ In corr (fills (trace (Process this data)))
        /\ fillName corr = "hTrackPtCorrelation"
        /\ firstn 1 (fillData corr) = firstn 1 (fillData f)).
Proof.
  intros Hin.
  apply Process_fills_rounds in Hin as (container & track & _ & _ & Hf & Hincl).
  set (names := GetMachingTriggerNames this (fTriggerMethod this)).
  set (weight := eventWeight this data).
  assert (Hsel : isCorrelation f = false ->
            forall g, In g (selectedFills this data names weight track) ->
                      In g (fills (trace (Process this data)))).
  { intros Hcorr g Hg. apply Hincl.
    now rewrite (trackFills_beyond_correlation this data track f Hf Hcorr). }
  assert (Hf' : In f (selectedFills this data names weight track))
    by (now apply processTrack_fills_in in Hf).
  apply selectedFills_in in Hf'
    as [(mc & Hmc & ->) | (n & Hn & [-> | [[Hh ->] | (mc & Hmc & [-> | [Hh ->]])]])];
    (split; [|split]); intros Hname; cbn [fillName] in Hname;
    try name_clash; apply Form_inj in Hname; subst n;
    destruct (selectedFills_has this data names weight track class Hn)
      as (Hraw & _ & Hmcs).
  - apply (Hsel eq_refl). exact Hraw.
  - exists (mkFill (Form "hTrackHist" class)
              (kineTuple this (GetRecEvent data) track) weight),
      (mkFill "hTrackPtCorrelation" (corrTuple mc track)
         FillCorrelation_default_weight).
    repeat split.
    + apply (Hsel eq_refl). exact Hraw.
    + apply (Hsel eq_refl). unfold selectedFills. apply in_or_app. left.
      rewrite Hmc. now left.
  - apply (Hsel eq_refl). apply (Hmcs mc Hmc).
Qed.

(** In the second end-to-end scenario the in-acceptance fill comes with the
    raw fill of the same tuple. *)
Lemma X11_aggregates_nested_witness :
  In (mkFill (Form "hTrackHist" "MinBias") [5; 3 # 10; 1; 2; 1] 1)
    (fills (trace (Process Scenario.plain Scenario.matched))).
Proof.
  apply (proj1 (X11_aggregates_nested Scenario.plain Scenario.matched
                  (mkFill "hTrackInAcceptanceHistMinBias"
                     [5; 3 # 10; 1; 2; 1] 1)
                  "MinBias" (or_intror (or_introl eq_refl)))).
  reflexivity.
Defined.

(** A selected candidate has an associated particle iff MC truth is
    requested. *)
Lemma selected_assoc this data track :
  passesSelection this data track = true ->
  isNull (assocMCof this data track) = negb (fRequestMCtrue this).
Proof.
  unfold passesSelection, assocMCof. intros H.
  apply andb_true_iff in H as [_ H].
  destruct (fRequestMCtrue this); [|reflexivity].
  cbn in H. now apply negb_true_iff in H.
Qed.

(** The number of fills of one candidate, and how many of them go to the
    correlation matrix. *)
Lemma selectedFills_length this data names weight track :
  passesSelection this data track = true ->
  List.length (selectedFills this data names weight track)
  = (count (fRequestMCtrue this)
     + List.length names
       * ((1 + count (hasClusterOf data track))
          * (1 + count (fRequestMCtrue this))))%nat
  /\ List.length (filter isCorrelation
                    (selectedFills this data names weight track))
     = count (fRequestMCtrue this).
Proof.
  intros Hs. apply selected_assoc in Hs. unfold selectedFills.
  rewrite filter_app, !length_app.
  assert (Hloop :
    List.length (flat_map (triggerFills this data track
                             (assocMCof this data track)
                             (hasClusterOf data track) weight) names)
    = (List.length names
       * ((1 + count (hasClusterOf data track))
          * (1 + count (fRequestMCtrue this))))%nat
    /\ filter isCorrelation
         (flat_map (triggerFills this data track
                      (assocMCof this data track)
                      (hasClusterOf data track) weight) names) = []).
  { induction names as [|n names [IH1 IH2]]; [split; reflexivity|].
    cbn [flat_map]. rewrite filter_app, length_app, IH1, IH2.
    destruct (assocMCof this data track), (hasClusterOf data track),
      (fRequestMCtrue this); try discriminate Hs; cbn; split;
      try reflexivity; lia. }
  destruct Hloop as [-> ->].
  destruct (assocMCof this data track), (fRequestMCtrue this);
    try discriminate Hs; cbn; split; try reflexivity; lia.
Qed.

(** X12. The number of fills of an event, for an event with its container
    of matched tracks in which no candidate that passes selection makes
    line 215 dereference a null pointer (a pico track without the track it
    wraps, or a cluster index that is not negative in an event without
    cluster container).  A candidate
    that does not pass selection adds nothing.  With N satisfied trigger
    classes a candidate that passes selection adds N fills, twice as many
    when a cluster is matched, and with MC truth requested twice as many
    again plus one fill of the correlation matrix; so the correlation
    matrix is filled once for every selected candidate when MC truth is
    requested, also when the event satisfies no trigger class, and never
    otherwise. *)
Theorem X12_number_of_fills
    (this : AliEMCalTriggerRecTrackAnalysisComponent)
    (data : AliEMCalTriggerEventData) (container : TClonesArray) :
  GetMatchedTrackContainer data = Some container ->
  clusterLookupsDefined this data container ->
  List.length (fills (trace (Process this data)))
  = list_sum
      (map (fun track =>
              (count (fRequestMCtrue this)
               + List.length
                   (GetMachingTriggerNames this (fTriggerMethod this))
                 * ((1 + count (hasClusterOf data track))
                    * (1 + count (fRequestMCtrue this))))%nat)
         (filter (passesSelection this data) (trackIter container)))
  /\ List.length (filter isCorrelation (fills (trace (Process this data))))
     = (count (fRequestMCtrue this)
        * List.length (filter (passesSelection this data)
                         (trackIter container)))%nat.
Proof.
  intros Hc Hsafe.
  rewrite (Process_fills_returned this data container Hc
             (Process_returns this data container Hc Hsafe)).
  unfold clusterLookupsDefined in Hsafe.
  induction (trackIter container) as [|track l IH]; cbn [flat_map filter].
  - cbn. split; [reflexivity | destruct (fRequestMCtrue this); reflexivity].
  - destruct IH as [IH1 IH2].
    { intros t Ht. apply Hsafe. now right. }
    rewrite filter_app, !length_app, IH1, IH2.
    destruct (passesSelection this data track) eqn:Hs.
    + rewrite (trackFills_selected this data track Hs
                 (Hsafe track (or_introl eq_refl) Hs)).
      destruct (selectedFills_length this data
                  (GetMachingTriggerNames this (fTriggerMethod this))
                  (eventWeight this data) track Hs) as [-> ->].
      cbn [map list_sum List.length].
      destruct (fRequestMCtrue this); cbn [count];
        (split; [reflexivity | cbn [List.length]; lia]).
    + rewrite (trackFills_rejected this data track Hs).
      cbn [List.length filter]. split; lia.
Qed.

(** With MC truth requested and no trigger class satisfied, the one
    selected candidate still fills the correlation matrix. *)
Lemma X12_number_of_fills_witness :
  List.length
    (fills (trace (Process
                     (newRecTrackComponent None None (mkTriggerDecision true)
                        (fun _ => []) 0)
                     Scenario.matched)))
  = 0%nat
  /\ List.length
       (filter isCorrelation
          (fills (trace (Process
                           (mkComponent None None (mkTriggerDecision true)
                              (fun _ => []) None false kTriggerString true 0)
                           Scenario.simulatedMatched))))
     = 1%nat.
Proof.
  assert (H1 : clusterLookupsDefined
                 (newRecTrackComponent None None (mkTriggerDecision true)
                    (fun _ => []) 0)
                 Scenario.matched [Some (TrackObject (Scenario.track 3))])
    by (intros t [<- | []] _; reflexivity).
  assert (H2 : clusterLookupsDefined
                 (mkComponent None None (mkTriggerDecision true)
                    (fun _ => []) None false kTriggerString true 0)
                 Scenario.simulatedMatched
                 [Some (TrackObject (Scenario.track 3))])
    by (intros t [<- | []] _; reflexivity).
  split.
  - rewrite (proj1 (X12_number_of_fills _ Scenario.matched
                      [Some (TrackObject (Scenario.track 3))] eq_refl H1)).
    reflexivity.
  - rewrite (proj2 (X12_number_of_fills _ Scenario.simulatedMatched
                      [Some (TrackObject (Scenario.track 3))] eq_refl H2)).
    reflexivity.
Defined.

(** A round for a candidate that does not pass selection fills nothing. *)
Lemma processTrack_fills_rejected this data names weight track :
  passesSelection this data track = false ->
  fills (trace (processTrack this data names weight track)) = []
  /\ errors (trace (processTrack this data names weight track)) = [].
Proof.
  intros Hs. split; [|apply processTrack_no_errors].
  destruct (passesCuts this track) eqn:Hcut.
  - now destruct (processTrack_unmatched this data names weight track Hcut Hs).
  - now destruct (processTrack_cut this data names weight track Hcut).
Qed.

(** Loops whose rounds have the same outcome, and fills that correspond
    under a map, correspond in the same way. *)
Lemma forEach_map_fills {A} (l : list A) (body1 body2 : A -> Exec unit)
    (g : FillRecord -> FillRecord) :
  (forall x,
     fills (trace (body1 x)) = map g (fills (trace (body2 x)))
     /\ result (body1 x) = result (body2 x)) ->
  fills (trace (forEach l body1)) = map g (fills (trace (forEach l body2)))
  /\ result (forEach l body1) = result (forEach l body2).
Proof.
  intros H. induction l as [|x l [IH1 IH2]]; [split; reflexivity|].
  cbn [forEach]. destruct (H x) as [Hf Hr].
  destruct (body1 x) as [tr1 r1], (body2 x) as [tr2 r2]. cbn in Hf, Hr.
  subst r2. destruct r1 as [[]|]; cbn.
  - rewrite !fills_app, map_app, Hf, IH1, IH2. split; reflexivity.
  - split; [exact Hf | reflexivity].
Qed.

(** A round for a candidate that does not pass selection does not depend
    on [fSwapEta]. *)
Lemma processTrack_rejected_swap this data names weight track swap :
  passesSelection this data track = false ->
  processTrack (withSwapEta this swap) data names weight track
  = processTrack this data names weight track.
Proof.
  intros Hs. unfold processTrack, AliDebug.
  change (failsKineCuts (withSwapEta this swap) track)
    with (failsKineCuts this track).
  change (failsTrackSelection (withSwapEta this swap) track)
    with (failsTrackSelection this track).
  cbn [withSwapEta fRequestMCtrue fDebugLevel].
  destruct (failsKineCuts this track) eqn:Hk; [reflexivity|].
  destruct (failsTrackSelection this track) eqn:Ht; [reflexivity|].
  unfold passesSelection, passesCuts, assocMCof in Hs.
  rewrite Hk, Ht in Hs. cbn in Hs.
  destruct (fRequestMCtrue this); [|discriminate].
  destruct (GetMCEvent data) as [evnt|]; [|reflexivity].
  rewrite !bind_deref_some.
  destruct (IsMCTrueTrack track evnt); [discriminate | reflexivity].
Qed.

(** The fills of a selected candidate with and without the eta swap. *)
Lemma selectedFills_swap this data names weight track :
  selectedFills (withSwapEta this true) data names weight track
  = map flipEta
      (selectedFills (withSwapEta this false) data names weight track).
Proof.
  unfold selectedFills. rewrite map_app.
  change (assocMCof (withSwapEta this true) data track)
    with (assocMCof this data track).
  change (assocMCof (withSwapEta this false) data track)
    with (assocMCof this data track).
  f_equal.
  - destruct (assocMCof this data track); reflexivity.
  - induction names as [|n names IH]; [reflexivity|].
    cbn [flat_map]. rewrite map_app, IH. f_equal.
    destruct (assocMCof this data track), (hasClusterOf data track);
      reflexivity.
Qed.

(** X13. [fSwapEta] changes the sign of the recorded eta of the fills of
    the per-trigger aggregates and nothing else: which candidates are
    selected, which histograms are filled, in which order and with which
    weights, the other numbers, the fills of the correlation matrix (whose
    eta is never swapped) and the outcome of the event stay as they are. *)
Theorem X13_swap_eta_only_flips_eta
    (this : AliEMCalTriggerRecTrackAnalysisComponent)
    (data : AliEMCalTriggerEventData) :
  fills (trace (Process (withSwapEta this true) data))
  = map flipEta (fills (trace (Process (withSwapEta this false) data)))
  /\ result (Process (withSwapEta this true) data)
     = result (Process (withSwapEta this false) data).
Proof.
  destruct (fRequestMCtrue this && isNull (GetMCEvent data)) eqn:Hskip.
  { unfold Process, AliDebug.
    cbn [withSwapEta fRequestMCtrue fDebugLevel]. rewrite Hskip.
    destruct (1 <=? fDebugLevel this)%Z; [|split; reflexivity].
    destruct (GetMatchedTrackContainer data); split; reflexivity. }
  destruct (GetMatchedTrackContainer data) as [container|] eqn:Hc.
  - destruct (Process_loop (withSwapEta this true) data container Hc Hskip)
      as (-> & _ & ->).
    destruct (Process_loop (withSwapEta this false) data container Hc Hskip)
      as (-> & _ & ->).
    apply forEach_map_fills. intros track.
    change (eventWeight (withSwapEta this true) data)
      with (eventWeight this data).
    change (eventWeight (withSwapEta this false) data)
      with (eventWeight this data).
    cbn [withSwapEta GetMachingTriggerNames fTriggerMethod].
    destruct (passesSelection this data track) eqn:Hs.
    + rewrite (processTrack_selected (withSwapEta this true) data _ _ track Hs),
        (processTrack_selected (withSwapEta this false) data _ _ track Hs).
      change (assocMCof (withSwapEta this true) data track)
        with (assocMCof this data track).
      change (assocMCof (withSwapEta this false) data track)
        with (assocMCof this data track).
      destruct (clusterLookupFaults data track); cbn [trace result fst snd];
        rewrite ?fills_fillEvent, ?fills_selectedTrace;
        (split; [|reflexivity]).
      * destruct (assocMCof this data track); reflexivity.
      * apply selectedFills_swap.
    + rewrite !(processTrack_rejected_swap this data _ _ track _ Hs).
      split; [|reflexivity].
      rewrite (proj1 (processTrack_fills_rejected this data _ _ track Hs)).
      reflexivity.
  - rewrite (Process_no_container (withSwapEta this true) data Hc),
      (Process_no_container (withSwapEta this false) data Hc).
    cbn [withSwapEta fRequestMCtrue fDebugLevel].
    destruct (1 <=? fDebugLevel this)%Z; [split; reflexivity|].
    destruct (fRequestMCtrue this && isNull (GetMCEvent data));
      split; reflexivity.
Qed.

(** X14. A component as its constructor leaves it (no track selection,
    no eta swap, trigger method [kTriggerString], MC truth not requested)
    fills the two track-level aggregates only: every fill of an event is a
    fill of [hTrackHist<class>] or [hTrackInAcceptanceHist<class>], for a
    class that [GetMachingTriggerNames(kTriggerString)] lists and a
    candidate that the kinematic cut lets pass, with the eta of the track
    as it is. *)
Theorem X14_fresh_component_track_level_only
    (kineCuts : option AliEMCalTriggerKineCuts)
    (weightHandler : option AliEMCalTriggerWeightHandler)
    (triggerDecision : AliEMCalTriggerAnaTriggerDecision)
    (matchingNames : ETriggerMethod_t -> list string) (debugLevel : Z)
    (data : AliEMCalTriggerEventData) (f : FillRecord) :
  let this := newRecTrackComponent kineCuts weightHandler triggerDecision
                matchingNames debugLevel in
  In f (fills (trace (Process this data))) ->
  isMCFill f = false
  /\ exists container track class,
       GetMatchedTrackContainer data = Some container
       /\ In track (trackIter container)
       /\ failsKineCuts this track = false
       /\ In class (matchingNames kTriggerString)
       /\ (fillName f = Form "hTrackHist" class
           \/ fillName f = Form "hTrackInAcceptanceHist" class)
       /\ fillData f
          = [ Qabs (Pt track); Eta track; Phi track;
              GetPrimaryVertexZ (GetRecEvent data);
              if IsMinBias triggerDecision then 1 else 0 ].
Proof.
  intros this Hin.
  apply Process_fills_in in Hin as (container & track & Hc & Ht & Hs & Hf).
  assert (Hk : failsKineCuts this track = false).
  { unfold passesSelection, passesCuts in Hs.
    apply andb_true_iff in Hs as [Hs _]. apply andb_true_iff in Hs as [Hs _].
    now apply negb_true_iff in Hs. }
  apply selectedFills_in in Hf
    as [(mc & Hmc & _) | (n & Hn & [-> | [[_ ->] | (mc & Hmc & _)]])];
    try discriminate Hmc; (split; [reflexivity|]);
    exists container, track, n; repeat split; auto.
Qed.

Lemma X14_fresh_component_track_level_only_witness :
  isMCFill (mkFill "hTrackHistMinBias" [5; 3 # 10; 1; 2; 1] 1) = false
  /\ exists container track class,
       GetMatchedTrackContainer Scenario.unmatched = Some container
       /\ In track (trackIter container)
       /\ failsKineCuts Scenario.plain track = false
       /\ In class ["MinBias"]
       /\ ("hTrackHistMinBias" = Form "hTrackHist" class
           \/ "hTrackHistMinBias" = Form "hTrackInAcceptanceHist" class)
       /\ [5; 3 # 10; 1; 2; 1]
          = [ Qabs (Pt track); Eta track; Phi track;
              GetPrimaryVertexZ (GetRecEvent Scenario.unmatched);
              1 ].
Proof.
  exact (X14_fresh_component_track_level_only None None
           (mkTriggerDecision true) (fun _ => ["MinBias"]) 0
           Scenario.unmatched
           (mkFill "hTrackHistMinBias" [5; 3 # 10; 1; 2; 1] 1)
           (or_introl eq_refl)).
Defined.

(** X15. The cluster container is read only for a candidate whose cluster
    index is not negative: when the candidates of an event all carry a
    negative index (a pico track in the track it wraps, if it has one), the
    event runs the same with any cluster container, or with none. *)
Theorem X15_cluster_container_unread
    (this : AliEMCalTriggerRecTrackAnalysisComponent)
    (data : AliEMCalTriggerEventData) (container : TClonesArray)
    (clusters : option TClonesArray) :
  GetMatchedTrackContainer data = Some container ->
  (forall track t,
     In track (trackIter container) ->
     testtrackOf track = Some t ->
     (GetEMCALcluster t < 0)%Z) ->
  Process this (withClusters data clusters) = Process this data.
Proof.
  intros Hc Hneg.
  assert (E : forEach (trackIter container)
                (processTrack this (withClusters data clusters)
                   (GetMachingTriggerNames this (fTriggerMethod this))
                   (eventWeight this data))
              = forEach (trackIter container)
                  (processTrack this data
                     (GetMachingTriggerNames this (fTriggerMethod this))
                     (eventWeight this data))).
  { apply forEach_ext_in. intros track Hin.
    assert (Hm : forall assocMC,
              matchAndFill this (withClusters data clusters)
                (GetMachingTriggerNames this (fTriggerMethod this))
                (eventWeight this data) track assocMC
              = matchAndFill this data
                  (GetMachingTriggerNames this (fTriggerMethod this))
                  (eventWeight this data) track assocMC).
    { intros assocMC. unfold matchAndFill, matchCluster.
      fold (testtrackOf track).
      destruct (testtrackOf track) as [t|] eqn:Et; [|reflexivity].
      assert (Hlt := Hneg track t Hin Et). apply Z.leb_gt in Hlt.
      rewrite !bind_deref_some, Hlt. reflexivity. }
    unfold processTrack. cbn [withClusters GetMCEvent]. rewrite !Hm.
    destruct (failsKineCuts this track); [reflexivity|].
    destruct (failsTrackSelection this track); [reflexivity|].
    destruct (fRequestMCtrue this); [|reflexivity].
    destruct (GetMCEvent data) as [evnt|]; [|reflexivity].
    rewrite !bind_deref_some.
    destruct (IsMCTrueTrack track evnt); [|reflexivity].
    now rewrite Hm. }
  unfold Process.
  change (eventWeight this (withClusters data clusters))
    with (eventWeight this data).
  cbn [withClusters GetMatchedTrackContainer GetMCEvent].
  rewrite Hc, E. reflexivity.
Qed.

(** The first end-to-end scenario runs the same with the four cluster
    slots at hand. *)
Lemma X15_cluster_container_unread_witness :
  Process Scenario.plain
    (withClusters Scenario.unmatched (Some Scenario.clusters))
  = ([Fill "hTrackHistMinBias" [5; 3 # 10; 1; 2; 1] 1], Some tt).
Proof.
  rewrite (X15_cluster_container_unread Scenario.plain Scenario.unmatched
             [Some (TrackObject (Scenario.track (-1)))]
             (Some Scenario.clusters) eq_refl).
  - reflexivity.
  - intros track t [<- | []] [= <-]. reflexivity.
Defined.

(** X16. The MC event is read only to match MC truth and to weight the
    event: for a component that does not request MC truth and has no
    weight handler, the event runs the same with any MC event, or with
    none. *)
Theorem X16_mc_event_unread
    (this : AliEMCalTriggerRecTrackAnalysisComponent)
    (data : AliEMCalTriggerEventData) (mc : option AliMCEvent) :
  fRequestMCtrue this = false ->
  fWeightHandler this = None ->
  Process this (withMCEvent data mc) = Process this data.
Proof.
  intros Hreq Hw.
  assert (Hweight : forall d, eventWeight this d = 1).
  { intros d. unfold eventWeight. now rewrite Hw. }
  assert (E : forall l,
            forEach l
              (processTrack this (withMCEvent data mc)
                 (GetMachingTriggerNames this (fTriggerMethod this)) 1)
            = forEach l
                (processTrack this data
                   (GetMachingTriggerNames this (fTriggerMethod this)) 1)).
  { intros l. apply forEach_ext_in. intros track _.
    unfold processTrack. rewrite Hreq. reflexivity. }
  unfold Process. rewrite !Hweight, Hreq.
  cbn [withMCEvent GetMatchedTrackContainer andb].
  destruct (GetMatchedTrackContainer data) as [container|]; [|reflexivity].
  now rewrite E.
Qed.

(** The first end-to-end scenario runs the same with the generated event
    at hand. *)
Lemma X16_mc_event_unread_witness :
  Process Scenario.plain
    (withMCEvent Scenario.unmatched (Some Scenario.generated))
  = ([Fill "hTrackHistMinBias" [5; 3 # 10; 1; 2; 1] 1], Some tt).
Proof.
  rewrite (X16_mc_event_unread Scenario.plain Scenario.unmatched
             (Some Scenario.generated) eq_refl eq_refl).
  reflexivity.
Defined.

(** ** The task registration macro *)

(** X17. The macro returns a task iff there is an analysis manager and it
    has an input event handler.  Otherwise it prints exactly one message
    under "AddTask_UpcNano", returns the null pointer and leaves the
    analysis manager as it found it: no task is added.  When it returns a
    task it prints nothing. *)
Theorem X17_macro_returns_task_iff
    (mgr : option AliAnalysisManager) (cutEta : Bool_t) :
  (returnedTask (AddTaskUpcNano_MB mgr cutEta) <> None
   <-> exists m handler,
         mgr = Some m /\ GetInputEventHandler m = Some handler)
  /\ (returnedTask (AddTaskUpcNano_MB mgr cutEta) = None ->
      manager (AddTaskUpcNano_MB mgr cutEta) = mgr
      /\ exists msg,
           printed (AddTaskUpcNano_MB mgr cutEta) = [("AddTask_UpcNano", msg)])
  /\ (returnedTask (AddTaskUpcNano_MB mgr cutEta) <> None ->
      printed (AddTaskUpcNano_MB mgr cutEta) = []).
Proof.
  unfold AddTaskUpcNano_MB.
  destruct mgr as [m|];
    [destruct (GetInputEventHandler m) as [handler|] eqn:Hin|];
    cbn; (split; [|split]).
  - split; [intros _; exists m, handler; auto | congruence].
  - discriminate.
  - reflexivity.
  - split; [congruence | intros (m' & h & [= <-] & H); congruence].
  - intros _. split; [reflexivity | eexists; reflexivity].
  - congruence.
  - split; [congruence | intros (m' & h & H & _); discriminate].
  - intros _. split; [reflexivity | eexists; reflexivity].
  - congruence.
Qed.

(** Without analysis manager: one message, no task. *)
Lemma X17_macro_returns_task_iff_witness :
  manager (AddTaskUpcNano_MB None true) = None
  /\ exists msg,
       printed (AddTaskUpcNano_MB None true) = [("AddTask_UpcNano", msg)].
Proof.
  exact (proj1 (proj2 (X17_macro_returns_task_iff None true)) eq_refl).
Defined.

(** X18. When the macro returns a task, the task is named after the data
    type of the input event handler, [SetCutEta] got the argument of the
    macro, the task is the last of the tasks of the analysis manager, after
    those that were there, and the event handlers are as before.  With an
    MC-truth event handler [SetIsMC] got [kTRUE]; nothing is said of what it
    got without one, where the macro reads the local before any
    assignment. *)
Theorem X18_macro_task_configuration
    (m : AliAnalysisManager) (handler : AliVEventHandler) (cutEta : Bool_t) :
  GetInputEventHandler m = Some handler ->
  exists task m',
    returnedTask (AddTaskUpcNano_MB (Some m) cutEta) = Some task
    /\ manager (AddTaskUpcNano_MB (Some m) cutEta) = Some m'
    /\ taskName task = GetDataType handler
    /\ fCutEta task = cutEta
    /\ (GetMCtruthEventHandler m <> None -> fIsMC task = Assigned true)
    /\ fTasks m' = fTasks m ++ [task]
    /\ GetInputEventHandler m' = GetInputEventHandler m
    /\ GetMCtruthEventHandler m' = GetMCtruthEventHandler m.
Proof.
  intros Hin. unfold AddTaskUpcNano_MB. rewrite Hin.
  do 2 eexists. cbn. repeat split; try reflexivity;
    cbn; destruct (GetMCtruthEventHandler m); congruence.
Qed.

(** A manager with an AOD input handler, an MC-truth handler and a task
    registered before. *)
Lemma X18_macro_task_configuration_witness :
  exists task m',
    returnedTask
      (AddTaskUpcNano_MB
         (Some (mkManager (Some (mkInputHandler "AOD")) (Some mkMCHandler)
                  (mkContainer "cAUTO_INPUT" "") "AnalysisResults.root"
                  [mkTask "ESD" Indeterminate false] [] []))
         true)
    = Some task
    /\ manager
         (AddTaskUpcNano_MB
            (Some (mkManager (Some (mkInputHandler "AOD")) (Some mkMCHandler)
                     (mkContainer "cAUTO_INPUT" "") "AnalysisResults.root"
                     [mkTask "ESD" Indeterminate false] [] []))
            true)
       = Some m'
    /\ task = mkTask "AOD" (Assigned true) true
    /\ fTasks m' = [mkTask "ESD" Indeterminate false; task].
Proof.
  destruct (X18_macro_task_configuration
              (mkManager (Some (mkInputHandler "AOD")) (Some mkMCHandler)
                 (mkContainer "cAUTO_INPUT" "") "AnalysisResults.root"
                 [mkTask "ESD" Indeterminate false] [] [])
              (mkInputHandler "AOD") true eq_refl)
    as (task & m' & Ht & Hm & _ & _ & _ & Htasks & _).
  exists task, m'. split; [exact Ht|]. split; [exact Hm|].
  injection Ht as <-. split; [reflexivity | exact Htasks].
Defined.

(** ** The fills of an event in full *)

(** X19. The fills of an event, in the order in which they are made, for
    an event with its container of matched tracks in which no candidate that
    passes selection makes line 215 dereference a null pointer (a pico track
    without the track it wraps, or a cluster index that is not negative in
    an event without cluster container): the candidates are taken in the order of the container;
    a candidate that does not pass selection adds nothing; a candidate that
    passes adds first its fill of the correlation matrix, if it has an
    associated particle, and then, for each satisfied trigger class in the
    order of [GetMachingTriggerNames], the fills of [hTrackHist<class>],
    of [hTrackInAcceptanceHist<class>] if a cluster is matched, of
    [hMCTrackHist<class>] if it has an associated particle, and of
    [hMCTrackInAcceptanceHist<class>] if both hold. *)
Theorem X19_fills_in_order
    (this : AliEMCalTriggerRecTrackAnalysisComponent)
    (data : AliEMCalTriggerEventData) (container : TClonesArray) :
  GetMatchedTrackContainer data = Some container ->
  clusterLookupsDefined this data container ->
  fills (trace (Process this data))
  = flat_map
      (fun track =>
         if passesSelection this data track
         then corrFills (assocMCof this data track) track
              ++ flat_map
                   (triggerFills this data track
                      (assocMCof this data track)
                      (hasClusterOf data track) (eventWeight this data))
                   (GetMachingTriggerNames this (fTriggerMethod this))
         else [])
      (trackIter container).
Proof.
  intros Hc Hsafe.
  rewrite (Process_fills_returned this data container Hc
             (Process_returns this data container Hc Hsafe)).
  rewrite !flat_map_concat_map. f_equal. apply map_ext_in.
  intros track Hin.
  destruct (passesSelection this data track) eqn:Hs.
  - apply trackFills_selected; [exact Hs | exact (Hsafe track Hin Hs)].
  - apply trackFills_rejected. exact Hs.
Qed.

(** Two candidates, the second matched to a cluster, in an event of two
    trigger classes. *)
Lemma X19_fills_in_order_witness :
  fills (trace (Process
                  (newRecTrackComponent None None (mkTriggerDecision false)
                     (fun _ => ["EMCJHigh"; "EMCHighJetOnly"]) 0)
                  (Scenario.event None (Some Scenario.clusters)
                     (Some [Some (TrackObject (Scenario.track (-1)));
                            Some (TrackObject (Scenario.track 3))]))))
  = [ mkFill "hTrackHistEMCJHigh" [5; 3 # 10; 1; 2; 0] 1;
      mkFill "hTrackHistEMCHighJetOnly" [5; 3 # 10; 1; 2; 0] 1;
      mkFill "hTrackHistEMCJHigh" [5; 3 # 10; 1; 2; 0] 1;
      mkFill "hTrackInAcceptanceHistEMCJHigh" [5; 3 # 10; 1; 2; 0] 1;
      mkFill "hTrackHistEMCHighJetOnly" [5; 3 # 10; 1; 2; 0] 1;
      mkFill "hTrackInAcceptanceHistEMCHighJetOnly" [5; 3 # 10; 1; 2; 0] 1 ].
Proof.
  rewrite (X19_fills_in_order
             (newRecTrackComponent None None (mkTriggerDecision false)
                (fun _ => ["EMCJHigh"; "EMCHighJetOnly"]) 0)
             (Scenario.event None (Some Scenario.clusters)
                (Some [Some (TrackObject (Scenario.track (-1)));
                       Some (TrackObject (Scenario.track 3))]))
             [Some (TrackObject (Scenario.track (-1)));
              Some (TrackObject (Scenario.track 3))] eq_refl).
  - reflexivity.
  - intros track [<- | [<- | []]] _; reflexivity.
Defined.
